(** * havana-weather: [scripts/fetch_weather.py]

    A shallow embedding of the weather script and the proofs of its
    specification.  The script fetches one Open-Meteo reading, appends a
    Markdown entry to [weather.md] unless its timestamp is already there,
    and rewrites [art/weather.svg].

    Layout: Python text and values, the operations of the Python runtime
    the script calls, the script's functions in source order, then the
    theorems. *)

From Stdlib Require Import List ZArith NArith Bool String Ascii Lia DecimalString.
Import ListNotations.

Set Implicit Arguments.
Set Warnings "-register-all".

(** ** Python text

    A Python [str] is a sequence of Unicode code points, so slices such as
    [now_time[:10]] count code points, not bytes. *)

Definition str := list N.

(** [lit] reads a literal of this file (UTF-8 bytes) as code points; it is
    only applied to the literals copied from the script. *)

Definition cont (c : ascii) : N := N.land (N_of_ascii c) 63.

Fixpoint lit (s : string) : str :=
  match s with
  | EmptyString => []
  | String c0 r0 =>
    let b := N_of_ascii c0 in
    if (b <? 128)%N then b :: lit r0
    else match r0 with
    | EmptyString => [b]
    | String c1 r1 =>
      if (b <? 224)%N then ((b - 192) * 64 + cont c1)%N :: lit r1
      else match r1 with
      | EmptyString => [b]
      | String c2 r2 =>
        if (b <? 240)%N
        then (((b - 224) * 64 + cont c1) * 64 + cont c2)%N :: lit r2
        else match r2 with
        | EmptyString => [b]
        | String c3 r3 =>
          ((((b - 240) * 64 + cont c1) * 64 + cont c2) * 64 + cont c3)%N
            :: lit r3
        end
      end
    end
  end.

Fixpoint str_eqb (a b : str) : bool :=
  match a, b with
  | [], [] => true
  | x :: a', y :: b' => (x =? y)%N && str_eqb a' b'
  | _, _ => false
  end.

(** [s.startswith(p)] *)
Fixpoint starts_with (p s : str) : bool :=
  match p, s with
  | [], _ => true
  | _ :: _, [] => false
  | x :: p', y :: s' => (x =? y)%N && starts_with p' s'
  end.

(** [k in txt] on two strings: substring search. *)
Fixpoint contains (k txt : str) : bool :=
  starts_with k txt ||
  match txt with
  | [] => false
  | _ :: t => contains k t
  end.

(** The same, as a proposition. *)
Definition Substring (k txt : str) : Prop :=
  exists a b, txt = a ++ k ++ b.

(** [sep.join(parts)] *)
Fixpoint join (sep : str) (parts : list str) : str :=
  match parts with
  | [] => []
  | [p] => p
  | p :: rest => p ++ sep ++ join sep rest
  end.

(** [s.replace(a, b)] for one-character [a] and [b]. *)
Definition replace_char (a b : N) (s : str) : str :=
  map (fun c => if (c =? a)%N then b else c) s.

(** [seq[lo:hi]] for non-negative bounds; [None] is an omitted [hi]. *)
Definition slice {A : Type} (lo : nat) (hi : option nat) (l : list A) : list A :=
  match hi with
  | Some h => firstn (h - lo) (skipn lo l)
  | None => skipn lo l
  end.

(** [str(z)] for an [int]. *)
Definition str_of_Z (z : Z) : str := lit (NilZero.string_of_int (Z.to_int z)).

Definition dquote : str := [34%N].
Definition newline : str := [10%N].

(** A double-quoted attribute value of the SVG template. *)
Definition q (s : str) : str := dquote ++ s ++ dquote.

(** ** Python values and exceptions *)

Inductive exn : Type :=
  | AttributeError | TypeError | IndexError | KeyError
  | ValueError | OverflowError | OSError.

Inductive result (A : Type) : Type :=
  | Ok (a : A)
  | Raise (e : exn).
Arguments Raise {A} e.

(** The script never computes with a [float]: it formats it ([str]),
    truncates it ([int], which raises on [nan] and [inf]) and tests it for
    truth.  A float is carried as these three observations. *)
Record pyfloat : Type := {
  float_str : str;
  float_int : result Z;
  float_nonzero : bool
}.

(** What [json.loads] can return. *)
Inductive pyval : Type :=
  | PyNone
  | PyBool (b : bool)
  | PyInt (z : Z)
  | PyFloat (f : pyfloat)
  | PyStr (s : str)
  | PyList (l : list pyval)
  | PyDict (d : list (str * pyval)).

(** Truth value of an object ([if not data], [x or y]). *)
Definition truthy (v : pyval) : bool :=
  match v with
  | PyNone => false
  | PyBool b => b
  | PyInt z => negb (z =? 0)%Z
  | PyFloat f => float_nonzero f
  | PyStr s => match s with [] => false | _ => true end
  | PyList l => match l with [] => false | _ => true end
  | PyDict d => match d with [] => false | _ => true end
  end.

Definition is_none (v : pyval) : bool :=
  match v with PyNone => true | _ => false end.

Fixpoint dict_get (d : list (str * pyval)) (k : str) : option pyval :=
  match d with
  | [] => None
  | (k', v) :: d' => if str_eqb k' k then Some v else dict_get d' k
  end.

(** [obj.get(k, default)]: only a dict has the method. *)
Definition py_get (obj : pyval) (k : str) (default : pyval) : result pyval :=
  match obj with
  | PyDict d =>
    Ok (match dict_get d k with Some v => v | None => default end)
  | _ => Raise AttributeError
  end.

(** [obj[0]] *)
Definition py_item0 (obj : pyval) : result pyval :=
  match obj with
  | PyList l => match l with x :: _ => Ok x | [] => Raise IndexError end
  | PyStr s => match s with c :: _ => Ok (PyStr [c]) | [] => Raise IndexError end
  | PyDict _ => Raise KeyError
  | _ => Raise TypeError
  end.

(** [obj[lo:hi]].  Slicing a dict raises [TypeError] before Python 3.12
    and [KeyError] from 3.12 on; nothing below depends on which. *)
Definition py_slice (lo : nat) (hi : option nat) (obj : pyval) : result pyval :=
  match obj with
  | PyStr s => Ok (PyStr (slice lo hi s))
  | PyList l => Ok (PyList (slice lo hi l))
  | _ => Raise TypeError
  end.

(** [k in obj] for a string [k]. *)
Definition py_in (k : str) (obj : pyval) : result bool :=
  match obj with
  | PyStr s => Ok (contains k s)
  | PyList l =>
    Ok (existsb (fun x => match x with PyStr s => str_eqb s k | _ => false end) l)
  | PyDict d => Ok (match dict_get d k with Some _ => true | None => false end)
  | _ => Raise TypeError
  end.

(** [obj.replace("T", " ")]: only a [str] has the method. *)
Definition py_replace_T (obj : pyval) : result pyval :=
  match obj with
  | PyStr s => Ok (PyStr (replace_char 84 32 s))
  | _ => Raise AttributeError
  end.

(** ** Exceptions as results *)

Definition bind {A B : Type} (r : result A) (k : A -> result B) : result B :=
  match r with
  | Ok a => k a
  | Raise e => Raise e
  end.

Notation "x <- r ;; k" := (bind r (fun x => k))
  (at level 61, r at next level, right associativity).

(** ** Configuration constants of the script *)

Definition k_current_weather : str := Eval vm_compute in lit "current_weather".
Definition k_daily : str := Eval vm_compute in lit "daily".
Definition k_time : str := Eval vm_compute in lit "time".
Definition k_temperature : str := Eval vm_compute in lit "temperature".
Definition k_windspeed : str := Eval vm_compute in lit "windspeed".
Definition k_weathercode : str := Eval vm_compute in lit "weathercode".
Definition k_tmax : str := Eval vm_compute in lit "temperature_2m_max".
Definition k_tmin : str := Eval vm_compute in lit "temperature_2m_min".
Definition k_precip : str := Eval vm_compute in lit "precipitation_sum".

Definition delimiter : str := newline ++ newline ++ lit "---" ++ newline ++ newline.
Definition blank_line : str := newline ++ newline.
Definition footer : str := Eval vm_compute in lit "_Source: Open-Meteo API_".
Definition max_min_label : str := Eval vm_compute in lit "Max/Min today".

Section Script.

(** Two built-ins of the Python runtime are taken as given: [repr] of a
    [str] (quoting and escaping, used when a list or dict is formatted)
    and [int] of a [str] ([None] when it raises [ValueError]). *)
Variable repr_str : str -> str.
Variable int_of_str : str -> option Z.

(** [repr(v)] *)
Fixpoint py_repr (v : pyval) : str :=
  match v with
  | PyNone => lit "None"
  | PyBool b => if b then lit "True" else lit "False"
  | PyInt z => str_of_Z z
  | PyFloat f => float_str f
  | PyStr s => repr_str s
  | PyList l => lit "[" ++ join (lit ", ") (map py_repr l) ++ lit "]"
  | PyDict d =>
    lit "{"
    ++ join (lit ", ")
         (map (fun kv => let '(k, x) := kv in
                         repr_str k ++ lit ": " ++ py_repr x) d)
    ++ lit "}"
  end.

(** [str(v)], which is what [f"{v}"] inserts. *)
Definition py_str (v : pyval) : str :=
  match v with
  | PyStr s => s
  | _ => py_repr v
  end.

(** [int(v)] *)
Definition py_int (v : pyval) : result Z :=
  match v with
  | PyInt z => Ok z
  | PyBool b => Ok (if b then 1 else 0)%Z
  | PyFloat f => float_int f
  | PyStr s =>
    match int_of_str s with
    | Some z => Ok z
    | None => Raise ValueError
    end
  | PyNone | PyList _ | PyDict _ => Raise TypeError
  end.

(** ** [weather_code_to_icon_and_text] *)

Definition unknown_pair : str * str := (lit "❓", lit "Unknown").
Definition clear_pair : str * str := (lit "☀️", lit "Clear sky").
Definition partly_cloudy_pair : str * str := (lit "🌤️", lit "Partly cloudy").
Definition fog_pair : str * str := (lit "🌫️", lit "Fog").
Definition rain_pair : str * str := (lit "🌧️", lit "Rain").
Definition snow_pair : str * str := (lit "❄️", lit "Snow").
Definition thunderstorm_pair : str * str := (lit "⛈️", lit "Thunderstorm").
Definition cloudy_pair : str * str := (lit "🌥️", lit "Cloudy").

(** The eight pairs the classifier can return. *)
Definition all_pairs : list (str * str) :=
  [unknown_pair; clear_pair; partly_cloudy_pair; fog_pair; rain_pair;
   snow_pair; thunderstorm_pair; cloudy_pair].

Definition weather_code_to_icon_and_text (code : pyval) : result (str * str) :=
  if is_none code then Ok unknown_pair
  else
    code <- py_int code ;;
    if (code =? 0)%Z then Ok clear_pair
    else if (1 <=? code)%Z && (code <=? 3)%Z then Ok partly_cloudy_pair
    else if (45 <=? code)%Z && (code <=? 48)%Z then Ok fog_pair
    else if ((51 <=? code)%Z && (code <=? 67)%Z)
            || ((80 <=? code)%Z && (code <=? 82)%Z) then Ok rain_pair
    else if ((71 <=? code)%Z && (code <=? 77)%Z)
            || ((85 <=? code)%Z && (code <=? 86)%Z) then Ok snow_pair
    else if (95 <=? code)%Z && (code <=? 99)%Z then Ok thunderstorm_pair
    else Ok cloudy_pair.

(** ** [build_md_entry] *)

(** [daily.get(k, [None])[0]] *)
Definition daily_first (daily : pyval) (k : str) : result pyval :=
  v <- py_get daily k (PyList [PyNone]) ;;
  py_item0 v.

(** The [try] block of [build_md_entry]: the three assignments run in
    order, and the first exception leaves the remaining names at [None]. *)
Definition read_daily (daily : pyval) : pyval * pyval * pyval :=
  match daily_first daily k_tmax with
  | Raise _ => (PyNone, PyNone, PyNone)
  | Ok tmax =>
    match daily_first daily k_tmin with
    | Raise _ => (tmax, PyNone, PyNone)
    | Ok tmin =>
      match daily_first daily k_precip with
      | Raise _ => (tmax, tmin, PyNone)
      | Ok precip => (tmax, tmin, precip)
      end
    end
  end.

Definition md_header (date_part time_part : pyval) : str :=
  lit "**" ++ py_str date_part ++ lit " " ++ py_str time_part
  ++ lit " — Alamar, Havana (Cuba)**".

Definition now_line (temp_now time_part : pyval) : str :=
  lit "Now: " ++ py_str temp_now ++ lit " °C (measured at "
  ++ py_str time_part ++ lit ")".

Definition max_min_line (tmax tmin : pyval) : str :=
  max_min_label ++ lit ": " ++ py_str tmax ++ lit " °C / "
  ++ py_str tmin ++ lit " °C".

Definition precip_line (precip : pyval) : str :=
  lit "Precipitation (today): " ++ py_str precip ++ lit " mm".

Definition wind_line (wind : pyval) : str :=
  lit "Wind speed: " ++ py_str wind ++ lit " km/h".

(** The list [lines] as it stands when it is joined. *)
Definition md_lines (date_part time_part : pyval) (emoji text : str)
    (temp_now tmax tmin precip wind : pyval) : list str :=
  [md_header date_part time_part; emoji ++ lit " " ++ text]
  ++ (if negb (is_none temp_now) then [now_line temp_now time_part] else [])
  ++ (if negb (is_none tmax) && negb (is_none tmin)
      then [max_min_line tmax tmin] else [])
  ++ (if negb (is_none precip) then [precip_line precip] else [])
  ++ (if negb (is_none wind) then [wind_line wind] else [])
  ++ [footer].

(** [build_md_entry] up to the join: the dedup key and [lines].  [now_iso]
    is [datetime.now(timezone.utc).isoformat()], read only when the
    reading has no usable time.  The result [None] is the pair
    [(None, None)]. *)
Definition build_md_lines (now_iso : str) (data : pyval)
    : result (option (str * list str)) :=
  if negb (truthy data) then Ok None
  else
    cw <- py_get data k_current_weather (PyDict []) ;;
    daily <- py_get data k_daily (PyDict []) ;;
    t <- py_get cw k_time PyNone ;;
    let now_time := if truthy t then t else PyStr now_iso in
    date_part <- py_slice 0 (Some 10%nat) now_time ;;
    has_T <- py_in (lit "T") now_time ;;
    time_part <- (if (has_T : bool) then py_slice 11 None now_time
                  else py_slice 11 (Some 19%nat) now_time) ;;
    temp_now <- py_get cw k_temperature PyNone ;;
    wind <- py_get cw k_windspeed PyNone ;;
    wcode <- py_get cw k_weathercode PyNone ;;
    let '(tmax, tmin, precip) := read_daily daily in
    icon <- weather_code_to_icon_and_text wcode ;;
    let '(emoji, text) := icon in
    let lines :=
      md_lines date_part time_part emoji text temp_now tmax tmin precip wind in
    let key := py_str date_part ++ lit "T" ++ py_str time_part in
    Ok (Some (key, lines)).

Definition build_md_entry (now_iso : str) (data : pyval)
    : result (option (str * str)) :=
  r <- build_md_lines now_iso data ;;
  match r with
  | None => Ok None
  | Some (key, lines) => Ok (Some (key, join blank_line lines ++ delimiter))
  end.

(** ** [build_svg]: the text of the image *)

(** The names [build_svg] binds before it lays the image out. *)
Record svg_locals : Type := {
  sv_time_str : pyval;
  sv_temp_now : pyval;
  sv_emoji : str;
  sv_text : str;
  sv_tmax : pyval;
  sv_tmin : pyval;
  sv_precip : pyval;
  sv_wind : pyval
}.

(** Lines 150-160, and [cw.get('windspeed','--')] of the template.  No
    [try] surrounds the three [daily] reads here. *)
Definition svg_read (data : pyval) : result svg_locals :=
  cw <- py_get data k_current_weather (PyDict []) ;;
  daily <- py_get data k_daily (PyDict []) ;;
  time_full <- py_get cw k_time (PyStr []) ;;
  replaced <- py_replace_T time_full ;;
  time_str <- py_slice 0 (Some 19%nat) replaced ;;
  temp_now <- py_get cw k_temperature (PyStr (lit "--")) ;;
  wcode <- py_get cw k_weathercode PyNone ;;
  icon <- weather_code_to_icon_and_text wcode ;;
  tmax <- daily_first daily k_tmax ;;
  tmin <- daily_first daily k_tmin ;;
  precip <- daily_first daily k_precip ;;
  wind <- py_get cw k_windspeed (PyStr (lit "--")) ;;
  Ok {| sv_time_str := time_str; sv_temp_now := temp_now;
        sv_emoji := fst icon; sv_text := snd icon;
        sv_tmax := tmax; sv_tmin := tmin; sv_precip := precip;
        sv_wind := wind |}.

Definition svg_title (time_str : pyval) : str :=
  lit "Alamar, Havana — " ++ py_str time_str.

Definition svg_temp_text (temp_now : pyval) : str :=
  py_str temp_now ++ lit " °C".

Definition svg_extra (tmax tmin precip : pyval) : str :=
  lit "Max " ++ py_str tmax ++ lit " °C / Min " ++ py_str tmin
  ++ lit " °C  •  Precip " ++ py_str precip ++ lit " mm".

Definition svg_meta (text : str) (wind : pyval) : str :=
  text ++ lit " — Wind: " ++ py_str wind ++ lit " km/h".

(** The template of lines 168-190, one element per line. *)
Definition svg_document (title emoji temp_text meta extra : str) : str :=
  let w := 600%Z in
  let h := 280%Z in
  join newline [
    lit "<?xml version=" ++ q (lit "1.0") ++ lit " encoding=" ++ q (lit "UTF-8")
      ++ lit "?>";
    lit "<svg width=" ++ q (str_of_Z w) ++ lit " height=" ++ q (str_of_Z h)
      ++ lit " viewBox="
      ++ q (lit "0 0 " ++ str_of_Z w ++ lit " " ++ str_of_Z h)
      ++ lit " xmlns=" ++ q (lit "http://www.w3.org/2000/svg")
      ++ lit " role=" ++ q (lit "img")
      ++ lit " aria-label=" ++ q (lit "Weather summary") ++ lit ">";
    lit "  <style>";
    lit "    .bg { fill: #0b1220; }";
    lit "    .card { fill: #0f1724; stroke: #1f2937; stroke-width:1; rx:14; }";
    lit "    .title { font: 20px 'Segoe UI', Roboto, Arial; fill: #e6eef8; }";
    lit "    .temp { font: 56px 'Segoe UI', Roboto, Arial; fill: #ffffff; font-weight:700; }";
    lit "    .emoji { font-size:56px; }";
    lit "    .meta { font: 14px 'Segoe UI', Roboto, Arial; fill: #cbd5e1; }";
    lit "    .foot { font: 12px 'Segoe UI', Roboto, Arial; fill: #94a3b8; }";
    lit "  </style>";
    lit "  <rect class=" ++ q (lit "bg") ++ lit " width=" ++ q (lit "100%")
      ++ lit " height=" ++ q (lit "100%") ++ lit " rx=" ++ q (lit "0")
      ++ lit "/>";
    lit "  <g transform=" ++ q (lit "translate(20,20)") ++ lit ">";
    lit "    <rect class=" ++ q (lit "card") ++ lit " x=" ++ q (lit "0")
      ++ lit " y=" ++ q (lit "0") ++ lit " width=" ++ q (str_of_Z (w - 40))
      ++ lit " height=" ++ q (str_of_Z (h - 40)) ++ lit " rx=" ++ q (lit "12")
      ++ lit "/>";
    lit "    <text class=" ++ q (lit "title") ++ lit " x=" ++ q (lit "24")
      ++ lit " y=" ++ q (lit "38") ++ lit ">" ++ title ++ lit "</text>";
    lit "    <text class=" ++ q (lit "emoji") ++ lit " x="
      ++ q (str_of_Z (w - 40 - 160)) ++ lit " y=" ++ q (lit "110") ++ lit ">"
      ++ emoji ++ lit "</text>";
    lit "    <text class=" ++ q (lit "temp") ++ lit " x=" ++ q (lit "110")
      ++ lit " y=" ++ q (lit "110") ++ lit ">" ++ temp_text ++ lit "</text>";
    lit "    <text class=" ++ q (lit "meta") ++ lit " x=" ++ q (lit "24")
      ++ lit " y=" ++ q (lit "160") ++ lit ">" ++ meta ++ lit "</text>";
    lit "    <text class=" ++ q (lit "meta") ++ lit " x=" ++ q (lit "24")
      ++ lit " y=" ++ q (lit "185") ++ lit ">" ++ extra ++ lit "</text>";
    lit "    <text class=" ++ q (lit "foot") ++ lit " x=" ++ q (lit "24")
      ++ lit " y=" ++ q (str_of_Z (h - 48)) ++ lit ">Source: Open-Meteo</text>";
    lit "  </g>";
    lit "</svg>"
  ] ++ newline.

Definition svg_render (l : svg_locals) : str :=
  svg_document (svg_title (sv_time_str l)) (sv_emoji l)
    (svg_temp_text (sv_temp_now l)) (svg_meta (sv_text l) (sv_wind l))
    (svg_extra (sv_tmax l) (sv_tmin l) (sv_precip l)).

(** The value of [svg] when [build_svg] reaches its first file operation. *)
Definition svg_text (data : pyval) : result str :=
  l <- svg_read data ;;
  Ok (svg_render l).

(** ** The two files, standard output and the operating system

    [md] and [svg] are the contents of [weather.md] and [art/weather.svg]
    ([None]: the file does not exist), [art_dir] tells whether the
    directory [art] exists.  [file_ops] records every operation on the two
    files in order, [stdout] every printed line. *)

Inductive file_op : Type :=
  | MdExists
  | MdRead
  | MdMkdirParent
  | MdOpenAppend
  | MdAppend (entry : str)
  | SvgMkdirParent
  | SvgOpen
  | SvgPut (text : str).

Record world : Type := {
  md : option str;
  svg : option str;
  art_dir : bool;
  stdout : list str;
  file_ops : list file_op
}.

(** The failures the operating system may answer with; they are fixed for
    a run.  A failed write leaves the file as the open left it. *)
Record faults : Type := {
  md_read_fails : bool;
  md_open_fails : bool;
  md_write_fails : bool;
  svg_mkdir_fails : bool;
  svg_open_fails : bool;
  svg_write_fails : bool
}.

(** What the HTTP request and [json.loads] come to: some exception, with
    its message, or the parsed body. *)
Inductive response : Type :=
  | FetchError (msg : str)
  | FetchBody (body : pyval).

Definition M (A : Type) : Type := world -> result A * world.

Definition ret {A : Type} (a : A) : M A := fun w => (Ok a, w).

Definition throw {A : Type} (e : exn) : M A := fun w => (Raise e, w).

Definition bindM {A B : Type} (m : M A) (k : A -> M B) : M B :=
  fun w =>
    match m w with
    | (Ok a, w') => k a w'
    | (Raise e, w') => (Raise e, w')
    end.

Notation "x <~ m ;; k" := (bindM m (fun x => k))
  (at level 61, m at next level, right associativity).
Notation "m ;;; k" := (bindM m (fun _ => k))
  (at level 61, right associativity).

Definition lift {A : Type} (r : result A) : M A := fun w => (r, w).

Definition say (line : str) : M unit :=
  fun w => (Ok tt, {| md := md w; svg := svg w; art_dir := art_dir w;
                      stdout := stdout w ++ [line];
                      file_ops := file_ops w |}).

Definition op (o : file_op) : M unit :=
  fun w => (Ok tt, {| md := md w; svg := svg w; art_dir := art_dir w;
                      stdout := stdout w;
                      file_ops := file_ops w ++ [o] |}).

Definition get_md : M (option str) := fun w => (Ok (md w), w).

Definition set_md (c : option str) : M unit :=
  fun w => (Ok tt, {| md := c; svg := svg w; art_dir := art_dir w;
                      stdout := stdout w; file_ops := file_ops w |}).

Definition set_svg (c : option str) : M unit :=
  fun w => (Ok tt, {| md := md w; svg := c; art_dir := art_dir w;
                      stdout := stdout w; file_ops := file_ops w |}).

Definition set_art_dir : M unit :=
  fun w => (Ok tt, {| md := md w; svg := svg w; art_dir := true;
                      stdout := stdout w; file_ops := file_ops w |}).

Definition contents (c : option str) : str :=
  match c with
  | Some t => t
  | None => []
  end.

Variable os : faults.

(** ** [try_fetch_json], [fetch_weather] *)

Definition request_url : str :=
  lit "https://api.open-meteo.com/v1/forecast"
  ++ lit "?"
  ++ lit "latitude=23.15794&longitude=-82.27837&current_weather=true"
  ++ lit "&daily=temperature_2m_max%2Ctemperature_2m_min%2Cprecipitation_sum"
  ++ lit "&forecast_days=1&timezone=America%2FHavana".

Definition try_fetch_json (r : response) : M pyval :=
  match r with
  | FetchBody body => ret body
  | FetchError e =>
    say (lit "[WARN] fetch error: " ++ e) ;;;
    ret PyNone
  end.

Definition fetch_weather (r : response) : M pyval :=
  say (lit "[INFO] Fetching: " ++ request_url) ;;;
  try_fetch_json r.

(** ** [already_exists], [append_md] *)

Definition already_exists (key : str) : M bool :=
  op MdExists ;;;
  c <~ get_md ;;
  match c with
  | None => ret false
  | Some txt =>
    op MdRead ;;;
    if md_read_fails os then ret false
    else ret (contains key txt)
  end.

Definition append_md (entry : str) : M unit :=
  op MdMkdirParent ;;;
  op MdOpenAppend ;;;
  if md_open_fails os then throw OSError
  else
    c <~ get_md ;;
    set_md (Some (contents c)) ;;;
    if md_write_fails os then throw OSError
    else
      op (MdAppend entry) ;;;
      set_md (Some (contents c ++ entry)) ;;;
      say (lit "[OK] Appended to weather.md").

(** ** [build_svg] *)

Definition build_svg (data : pyval) : M unit :=
  if negb (truthy data) then ret tt
  else
    text <~ lift (svg_text data) ;;
    op SvgMkdirParent ;;;
    if svg_mkdir_fails os then throw OSError
    else
      set_art_dir ;;;
      op SvgOpen ;;;
      if svg_open_fails os then throw OSError
      else
        set_svg (Some []) ;;;
        if svg_write_fails os then throw OSError
        else
          op (SvgPut text) ;;;
          set_svg (Some text) ;;;
          say (lit "[OK] Wrote SVG to art/weather.svg").

(** ** [main]

    [log_writer] is lines 205-208 of [main]: the dedup check and the
    conditional append. *)

Definition log_writer (key entry : str) : M unit :=
  found <~ already_exists key ;;
  if (found : bool) then
    say (lit "[INFO] Entry for this timestamp already exists; skipping append.")
  else append_md entry.

Definition no_data_msg : str := lit "[ERROR] No data from Open-Meteo.".
Definition cannot_build_msg : str := lit "[ERROR] Could not build entry.".

(** The result is the exit status [main] returns; an exception that
    nothing catches ends the process instead. *)
Definition main (r : response) (now_iso : str) : M Z :=
  data <~ fetch_weather r ;;
  if negb (truthy data) then
    say no_data_msg ;;;
    ret 2%Z
  else
    built <~ lift (build_md_entry now_iso data) ;;
    match built with
    | None =>
      say cannot_build_msg ;;;
      ret 2%Z
    | Some (key, entry) =>
      if negb (truthy (PyStr key)) then
        say cannot_build_msg ;;;
        ret 2%Z
      else
        log_writer key entry ;;;
        build_svg data ;;;
        ret 0%Z
    end.

Definition start (c : option str) (s : option str) (d : bool) : world :=
  {| md := c; svg := s; art_dir := d; stdout := []; file_ops := [] |}.

(** ** Readings the properties speak of *)

(** A field of the [daily] object as the reading has it: [None] when the
    key is missing, when its array is empty or starts with [null], or when
    the lookup raises. *)
Definition reading_field (daily : pyval) (k : str) : pyval :=
  match daily_first daily k with
  | Ok v => v
  | Raise _ => PyNone
  end.


(** A response of the shape the API documents: an object whose
    [current_weather] is an object, with a [time] that is a string (or
    falsy, or missing) and a [weathercode] that is an integer (or [null],
    or missing).  Nothing is asked of [daily]. *)
Definition well_shaped (data : pyval) : Prop :=
  truthy data = true /\
  exists c,
    py_get data k_current_weather (PyDict []) = Ok (PyDict c) /\
    match dict_get c k_time with
    | Some t => truthy t = true -> exists s, t = PyStr s
    | None => True
    end /\
    match dict_get c k_weathercode with
    | Some (PyInt _) | Some PyNone | None => True
    | Some _ => False
    end.

(** A float that is neither [nan] nor infinite, given by its [str] and
    its truncation. *)
Definition float_lit (text : string) (trunc : Z) (nonzero : bool) : pyval :=
  PyFloat {| float_str := lit text; float_int := Ok trunc;
             float_nonzero := nonzero |}.

(** The response of the end-to-end example. *)
Definition sample_current : pyval :=
  PyDict [(k_time, PyStr (lit "2024-01-01T12:00"));
          (k_temperature, float_lit "24.5" 24 true);
          (k_windspeed, float_lit "10.0" 10 true);
          (k_weathercode, PyInt 0)].

Definition sample_response : pyval :=
  PyDict [(k_current_weather, sample_current);
          (k_daily,
           PyDict [(k_tmax, PyList [float_lit "27.0" 27 true]);
                   (k_tmin, PyList [float_lit "20.0" 20 true]);
                   (k_precip, PyList [float_lit "0.0" 0 false])])].

(** The same response with the day's maxima bound to an empty array. *)
Definition empty_max_response : pyval :=
  PyDict [(k_current_weather, sample_current);
          (k_daily,
           PyDict [(k_tmax, PyList []);
                   (k_tmin, PyList [float_lit "20.0" 20 true]);
                   (k_precip, PyList [float_lit "0.0" 0 false])])].

(** A response without [daily] maxima and without a temperature. *)
Definition sparse_current : pyval :=
  PyDict [(k_time, PyStr (lit "2024-01-01T12:00")); (k_weathercode, PyInt 61)].

Definition sparse_daily : pyval :=
  PyDict [(k_tmin, PyList [float_lit "20.0" 20 true])].

Definition sparse_response : pyval :=
  PyDict [(k_current_weather, sparse_current); (k_daily, sparse_daily)].

(** An [int] that accepts no string, to run the script on responses
    whose condition code is a number. *)
Definition no_int (_ : str) : option Z := None.

Definition writes_ok (read_fails : bool) : faults :=
  {| md_read_fails := read_fails; md_open_fails := false;
     md_write_fails := false; svg_mkdir_fails := false;
     svg_open_fails := false; svg_write_fails := false |}.

(** The answer of [already_exists] in the state [w]. *)
Definition key_found (key : str) (w : world) : bool :=
  match md w with
  | Some txt => negb (md_read_fails os) && contains key txt
  | None => false
  end.

Definition precip_label : str := Eval vm_compute in lit "Precipitation (today)".

(** The letter "T" that separates date and time in a timestamp. *)
Definition letter_T : N := 84%N.

(** A response on which [build_svg] lays the image out: [current_weather]
    and [daily] are objects (or missing), [time] is a string (or missing),
    [weathercode] an integer (or [null], or missing), and each of the three
    [daily] fields is missing or bound to a non-empty array. *)
Definition nonempty_or_missing (d : list (str * pyval)) (k : str) : Prop :=
  match dict_get d k with
  | None => True
  | Some (PyList (_ :: _)) => True
  | Some _ => False
  end.

Definition svg_shaped (data : pyval) : Prop :=
  exists c d,
    py_get data k_current_weather (PyDict []) = Ok (PyDict c) /\
    py_get data k_daily (PyDict []) = Ok (PyDict d) /\
    match dict_get c k_time with
    | Some (PyStr _) | None => True
    | Some _ => False
    end /\
    match dict_get c k_weathercode with
    | Some (PyInt _) | Some PyNone | None => True
    | Some _ => False
    end /\
    nonempty_or_missing d k_tmax /\
    nonempty_or_missing d k_tmin /\
    nonempty_or_missing d k_precip.

(** A key and a document that holds it; a run's starting states. *)
Definition logged_key : str := lit "2024-01-01T12:00".

Definition logged_world : world :=
  start (Some (lit "seen 2024-01-01T12:00 already")) None false.

Definition fresh_world : world := start None None false.


(** The block and the image names of the example response. *)
Definition sample_lines : list str :=
  [lit "**2024-01-01 12:00 — Alamar, Havana (Cuba)**";
   lit "☀️ Clear sky";
   lit "Now: 24.5 °C (measured at 12:00)";
   lit "Max/Min today: 27.0 °C / 20.0 °C";
   lit "Precipitation (today): 0.0 mm";
   lit "Wind speed: 10.0 km/h";
   footer].

Definition sample_entry : str := join blank_line sample_lines ++ delimiter.

Definition sample_locals : svg_locals :=
  {| sv_time_str := PyStr (lit "2024-01-01 12:00");
     sv_temp_now := float_lit "24.5" 24 true;
     sv_emoji := lit "☀️"; sv_text := lit "Clear sky";
     sv_tmax := float_lit "27.0" 27 true;
     sv_tmin := float_lit "20.0" 20 true;
     sv_precip := float_lit "0.0" 0 false;
     sv_wind := float_lit "10.0" 10 true |}.

(** The [daily] object and the block of [empty_max_response]. *)
Definition empty_max_daily : pyval :=
  PyDict [(k_tmax, PyList []);
          (k_tmin, PyList [float_lit "20.0" 20 true]);
          (k_precip, PyList [float_lit "0.0" 0 false])].

Definition empty_max_lines : list str :=
  [lit "**2024-01-01 12:00 — Alamar, Havana (Cuba)**";
   lit "☀️ Clear sky";
   lit "Now: 24.5 °C (measured at 12:00)";
   lit "Wind speed: 10.0 km/h";
   footer].

(** A reading without a time, one whose time is [null], and a clock. *)
Definition timeless_current : pyval := PyDict [(k_weathercode, PyInt 0)].

Definition timeless_response : pyval :=
  PyDict [(k_current_weather, timeless_current)].

Definition null_time_current : pyval := PyDict [(k_time, PyNone)].

Definition null_time_response : pyval :=
  PyDict [(k_current_weather, null_time_current)].

Definition iso_clock : str := lit "2024-01-01T12:00:00+00:00".

Definition timeless_lines : list str :=
  [lit "**2024-01-01 12:00:00+00:00 — Alamar, Havana (Cuba)**";
   lit "☀️ Clear sky";
   footer].


(** * Properties *)

(** ** Text *)

Lemma starts_with_iff (p s : str) :
  starts_with p s = true <-> exists r, s = p ++ r.
Proof.
  revert s; induction p as [|x p IH]; intros s; simpl.
  - split; [intros _; now exists s | reflexivity].
  - destruct s as [|y s].
    + split; [discriminate | intros [r H]; discriminate].
    + rewrite andb_true_iff, N.eqb_eq, IH. split.
      * intros [-> [r ->]]. now exists r.
      * intros [r H]. injection H as -> ->. split; [reflexivity | now exists r].
Qed.

Lemma contains_iff (k txt : str) :
  contains k txt = true <-> Substring k txt.
Proof.
  unfold Substring. induction txt as [|c t IH].
  - simpl. rewrite orb_false_r, starts_with_iff. split.
    + intros [r H]. now exists [], r.
    + intros [a [b H]]. destruct a; [now exists b | discriminate].
  - change (contains k (c :: t))
      with (starts_with k (c :: t) || contains k t).
    rewrite orb_true_iff, starts_with_iff, IH. split.
    + intros [[r H] | [a [b H]]].
      * now exists [], r.
      * exists (c :: a), b. now rewrite H.
    + intros [a [b H]]. destruct a as [|c' a].
      * left. now exists b.
      * right. injection H as _ H. now exists a, b.
Qed.

Lemma str_eqb_eq (a b : str) : str_eqb a b = true <-> a = b.
Proof.
  revert b; induction a as [|x a IH]; intros [|y b]; simpl;
    try (split; [reflexivity | reflexivity]);
    try (split; discriminate).
  rewrite andb_true_iff, N.eqb_eq, IH. split.
  - now intros [-> ->].
  - intros H; injection H as -> ->; now split.
Qed.

(** ** The classifier *)

Ltac ztests :=
  repeat match goal with
  | |- context [(?a =? ?b)%Z] =>
    destruct (Z.eqb_spec a b); simpl; try lia; try reflexivity
  | |- context [(?a <=? ?b)%Z] =>
    destruct (Z.leb_spec a b); simpl; try lia; try reflexivity
  end.

(** C1.  The classifier is total on optional integer codes and returns
    the pair of the range the code falls in: [None] gives the unknown
    pair, and an integer gives the clear-sky pair for 0, partly cloudy for
    1-3, fog for 45-48, rain for 51-67 and 80-82, snow for 71-77 and
    85-86, thunderstorm for 95-99 and the cloudy pair for every other
    integer, the negative ones included. *)
Theorem weather_code_total_and_ranges :
  weather_code_to_icon_and_text PyNone = Ok unknown_pair /\
  forall z : Z,
    let r := weather_code_to_icon_and_text (PyInt z) in
    (exists pair, r = Ok pair) /\
    (z = 0 -> r = Ok clear_pair)%Z /\
    (1 <= z <= 3 -> r = Ok partly_cloudy_pair)%Z /\
    (45 <= z <= 48 -> r = Ok fog_pair)%Z /\
    (51 <= z <= 67 \/ 80 <= z <= 82 -> r = Ok rain_pair)%Z /\
    (71 <= z <= 77 \/ 85 <= z <= 86 -> r = Ok snow_pair)%Z /\
    (95 <= z <= 99 -> r = Ok thunderstorm_pair)%Z /\
    (z < 0 \/ 3 < z < 45 \/ 48 < z < 51 \/ 67 < z < 71 \/ 77 < z < 80
     \/ 82 < z < 85 \/ 86 < z < 95 \/ 99 < z -> r = Ok cloudy_pair)%Z.
Proof.
  split; [reflexivity|].
  intros z r; subst r.
  unfold weather_code_to_icon_and_text; simpl.
  repeat split; try intros H.
  - ztests; eexists; reflexivity.
  - ztests.
  - ztests.
  - ztests.
  - ztests.
  - ztests.
  - ztests.
  - ztests.
Qed.

(** ** Files *)

Ltac run :=
  unfold main, log_writer, already_exists, append_md, build_svg,
    fetch_weather, try_fetch_json, bindM, ret, throw, lift, say, op,
    get_md, set_md, set_svg, set_art_dir;
  simpl.

Lemma fetch_weather_files (r : response) (w : world) :
  let out := fetch_weather r w in
  fst out = fst (try_fetch_json r w) /\
  md (snd out) = md w /\ svg (snd out) = svg w /\
  art_dir (snd out) = art_dir w /\ file_ops (snd out) = file_ops w.
Proof. destruct r; run; repeat split. Qed.

Lemma build_svg_md (data : pyval) (w : world) :
  md (snd (build_svg data w)) = md w.
Proof.
  run. destruct (truthy data); simpl; [|reflexivity].
  destruct (svg_text data); simpl; [|reflexivity].
  destruct (svg_mkdir_fails os); simpl; [reflexivity|].
  destruct (svg_open_fails os); simpl; [reflexivity|].
  destruct (svg_write_fails os); reflexivity.
Qed.




(** C2 (amended).  Idempotent append: when [weather.md] can be read and
    its text contains the dedup key as a substring, the Log Writer step
    with that key and any block returns normally, leaves the document's
    contents as they were and performs no write: its only file operations
    are the existence test and the read. *)
Theorem log_writer_idempotent (key entry txt : str) (w : world) :
  md w = Some txt ->
  Substring key txt ->
  md_read_fails os = false ->
  let out := log_writer key entry w in
  fst out = Ok tt /\
  md (snd out) = Some txt /\
  svg (snd out) = svg w /\
  file_ops (snd out) = file_ops w ++ [MdExists; MdRead].
Proof.
  intros Hmd Hsub Hread. apply contains_iff in Hsub.
  run. rewrite Hmd; simpl. rewrite Hread, Hsub; simpl.
  repeat split. now rewrite <- app_assoc.
Qed.

(** C3.  Fetch-failure atomicity: when [try_fetch_json] returns [None],
    [main] returns 2 and performs no operation on [weather.md] or
    [art/weather.svg]: neither file is read, written or created. *)
Theorem fetch_failure_atomic (r : response) (now_iso : str) (w : world) :
  fst (try_fetch_json r w) = Ok PyNone ->
  let out := main r now_iso w in
  fst out = Ok 2%Z /\
  md (snd out) = md w /\
  svg (snd out) = svg w /\
  art_dir (snd out) = art_dir w /\
  file_ops (snd out) = file_ops w.
Proof.
  destruct r as [msg|body]; run.
  - intros _. repeat split.
  - intros H; injection H as ->. simpl. repeat split.
Qed.



(** ** The log entry *)

Ltac bind_inv H :=
  match type of H with
  | bind ?r _ = _ =>
    let E := fresh "E" in
    destruct r eqn:E; simpl in H; [|discriminate H]
  end.

Lemma classifier_pairs (code : pyval) (p : str * str) :
  weather_code_to_icon_and_text code = Ok p -> In p all_pairs.
Proof.
  unfold weather_code_to_icon_and_text.
  destruct (is_none code); [intros H; injection H as <-; simpl; auto|].
  intros H. bind_inv H.
  repeat match type of H with
  | (if ?c then _ else _) = _ => destruct c
  end; injection H as <-; simpl; auto 10.
Qed.

(** What a normal return of [build_md_lines] on a truthy [data] is made
    of. *)
Lemma build_md_lines_inv (now_iso : str) (data : pyval)
    (r : option (str * list str)) :
  truthy data = true ->
  build_md_lines now_iso data = Ok r ->
  exists daily date_part time_part emoji text temp_now wind,
    py_get data k_daily (PyDict []) = Ok daily /\
    In (emoji, text) all_pairs /\
    r = Some (py_str date_part ++ lit "T" ++ py_str time_part,
              md_lines date_part time_part emoji text temp_now
                (fst (fst (read_daily daily))) (snd (fst (read_daily daily)))
                (snd (read_daily daily)) wind).
Proof.
  intros Ht H. unfold build_md_lines in H. rewrite Ht in H. simpl in H.
  do 9 bind_inv H.
  destruct (read_daily a0) as [[tmax tmin] precip] eqn:Hd.
  bind_inv H. destruct a8 as [emoji text].
  injection H as <-.
  exists a0, a2, a4, emoji, text, a5, a6. simpl.
  split; [reflexivity|]. split; [now apply classifier_pairs with a7|].
  now rewrite Hd.
Qed.

Lemma read_daily_absent (daily : pyval) :
  reading_field daily k_tmax = PyNone \/ reading_field daily k_tmin = PyNone ->
  fst (fst (read_daily daily)) = PyNone \/ snd (fst (read_daily daily)) = PyNone.
Proof.
  unfold reading_field, read_daily.
  destruct (daily_first daily k_tmax); [|now left].
  destruct (daily_first daily k_tmin); [|now right].
  destruct (daily_first daily k_precip); simpl; auto.
Qed.

Lemma icon_line_prefix (emoji text : str) :
  In (emoji, text) all_pairs ->
  starts_with max_min_label (emoji ++ lit " " ++ text) = false.
Proof.
  unfold all_pairs. simpl.
  intros H. repeat destruct H as [H|H]; try contradiction;
    injection H as <- <-; reflexivity.
Qed.

(** Without both temperatures no element of [lines] is the Max/Min line. *)
Lemma md_lines_without_max_min (date_part time_part : pyval)
    (emoji text : str) (temp_now tmax tmin precip wind : pyval) :
  In (emoji, text) all_pairs ->
  tmax = PyNone \/ tmin = PyNone ->
  forall line,
    In line (md_lines date_part time_part emoji text temp_now tmax tmin
               precip wind) ->
    starts_with max_min_label line = false.
Proof.
  intros Hp Habs line Hin. unfold md_lines in Hin.
  assert (Hgate : negb (is_none tmax) && negb (is_none tmin) = false).
  { destruct Habs as [-> | ->]; simpl; [reflexivity|].
    now rewrite andb_false_r. }
  rewrite Hgate in Hin.
  repeat (apply in_app_or in Hin; destruct Hin as [Hin|Hin]).
  - destruct Hin as [<-|[<-|[]]]; [reflexivity | now apply icon_line_prefix].
  - destruct (is_none temp_now); simpl in Hin; [contradiction|].
    destruct Hin as [<-|[]]. reflexivity.
  - destruct Hin.
  - destruct (is_none precip); simpl in Hin; [contradiction|].
    destruct Hin as [<-|[]]. reflexivity.
  - destruct (is_none wind); simpl in Hin; [contradiction|].
    destruct Hin as [<-|[]]. reflexivity.
  - destruct Hin as [<-|[]]. reflexivity.
Qed.

(** With both temperatures the line is there. *)
Lemma md_lines_with_max_min (date_part time_part : pyval)
    (emoji text : str) (temp_now tmax tmin precip wind : pyval) :
  tmax <> PyNone -> tmin <> PyNone ->
  In (max_min_line tmax tmin)
     (md_lines date_part time_part emoji text temp_now tmax tmin precip wind).
Proof.
  intros Hmax Hmin. unfold md_lines.
  assert (Hgate : negb (is_none tmax) && negb (is_none tmin) = true).
  { destruct tmax; try congruence; destruct tmin; try congruence;
      reflexivity. }
  rewrite Hgate. do 2 (apply in_or_app; right).
  apply in_or_app; left. now left.
Qed.

Lemma build_md_lines_truthy (now_iso : str) (data : pyval)
    (p : str * list str) :
  build_md_lines now_iso data = Ok (Some p) -> truthy data = true.
Proof.
  unfold build_md_lines. destruct (truthy data); [reflexivity|].
  simpl. discriminate.
Qed.

(** C6.  Both-or-neither suppression: when the reading's daily maximum
    or its daily minimum is absent (so also when both are), the [lines]
    [build_md_entry] joins into the block hold no line that starts with
    "Max/Min today". *)
Theorem max_min_line_both_or_neither (now_iso : str) (data daily : pyval)
    (key : str) (lines : list str) :
  build_md_lines now_iso data = Ok (Some (key, lines)) ->
  py_get data k_daily (PyDict []) = Ok daily ->
  reading_field daily k_tmax = PyNone \/ reading_field daily k_tmin = PyNone ->
  (forall line, In line lines -> starts_with max_min_label line = false) /\
  build_md_entry now_iso data
  = Ok (Some (key, join blank_line lines ++ delimiter)).
Proof.
  intros Hb Hd Habs. split.
  - pose proof (build_md_lines_truthy _ _ Hb) as Ht.
    destruct (build_md_lines_inv _ _ Ht Hb)
      as (daily' & dp & tp & emoji & text & temp & wind & Hd' & Hp & Hr).
    rewrite Hd in Hd'. injection Hd' as <-.
    injection Hr as _ ->.
    apply md_lines_without_max_min; [exact Hp|].
    now apply read_daily_absent.
  - unfold build_md_entry. now rewrite Hb.
Qed.

Lemma classifier_int_total (z : Z) :
  exists pair, weather_code_to_icon_and_text (PyInt z) = Ok pair.
Proof.
  unfold weather_code_to_icon_and_text; simpl.
  ztests; eexists; reflexivity.
Qed.

(** [build_md_lines] returns on every well-shaped response. *)
Lemma build_md_lines_returns (now_iso : str) (data : pyval) :
  well_shaped data ->
  exists key lines, build_md_lines now_iso data = Ok (Some (key, lines)).
Proof.
  intros (Ht & c & Hcw & Htime & Hcode).
  unfold build_md_lines. rewrite Ht, Hcw. simpl.
  destruct data as [| | | | |l|d]; try discriminate Hcw. simpl.
  set (now_time := if truthy _ then _ else PyStr now_iso).
  assert (Hnow : exists s, now_time = PyStr s).
  { subst now_time. destruct (dict_get c k_time) as [t|]; simpl.
    - destruct (truthy t) eqn:Et; [now apply Htime | now eexists].
    - now eexists. }
  destruct Hnow as [s ->]. simpl.
  destruct (contains [84%N] s); simpl;
    destruct (read_daily _) as [[tmax tmin] precip];
    (destruct (dict_get c k_weathercode) as [[| |z| | | |]|];
     try contradiction; simpl;
     [now eexists; eexists
     |destruct (classifier_int_total z) as [[emoji text] ->]; simpl;
      now eexists; eexists
     |now eexists; eexists]).
Qed.

(** C10.  On a truthy [data] every normal return of [build_md_entry]
    carries a dedup key that contains "T" and is therefore a non-empty
    string, and on a well-shaped response [build_md_entry] does return;
    so [main] never takes its "Could not build entry" exit: when the
    fetched data is truthy the only status it returns is 0. *)
Theorem dedup_key_never_empty (now_iso : str) (data : pyval) :
  truthy data = true ->
  (forall r, build_md_entry now_iso data = Ok r ->
     exists key entry,
       r = Some (key, entry) /\ Substring (lit "T") key /\
       truthy (PyStr key) = true) /\
  (well_shaped data ->
     exists key entry, build_md_entry now_iso data = Ok (Some (key, entry))) /\
  (forall (resp : response) (w : world) (code : Z),
     fst (fetch_weather resp w) = Ok data ->
     fst (main resp now_iso w) = Ok code -> code = 0%Z).
Proof.
  intros Ht.
  assert (Hkey : forall r, build_md_entry now_iso data = Ok r ->
     exists key entry,
       r = Some (key, entry) /\ Substring (lit "T") key /\
       truthy (PyStr key) = true).
  { intros r Hr. unfold build_md_entry in Hr. bind_inv Hr.
    destruct (build_md_lines_inv _ _ Ht E)
      as (daily & dp & tp & emoji & text & temp & wind & _ & _ & ->).
    injection Hr as <-. eexists; eexists. split; [reflexivity|]. split.
    - exists (py_str dp), (py_str tp). reflexivity.
    - simpl. destruct (py_str dp); reflexivity. }
  split; [exact Hkey|]. split.
  { intros Hshape.
    destruct (build_md_lines_returns now_iso Hshape) as (key & lines & Hb).
    unfold build_md_entry. rewrite Hb. simpl. now eexists; eexists. }
  intros resp w code Hf Hm. unfold main, bindM in Hm.
  destruct (fetch_weather resp w) as [[data'|e] w1]; simpl in Hf;
    [injection Hf as ->|discriminate].
  rewrite Ht in Hm. simpl in Hm. unfold lift in Hm.
  destruct (build_md_entry now_iso data) as [r|e] eqn:Hb;
    [|discriminate].
  destruct (Hkey r eq_refl) as (key & entry & -> & _ & Hk).
  destruct key as [|c key']; [discriminate Hk|]. simpl in Hm.
  destruct (log_writer (c :: key') entry w1) as [[[]|e] w2]; [|discriminate].
  destruct (build_svg data w2) as [[[]|e] w3]; [|discriminate].
  simpl in Hm. now injection Hm as <-.
Qed.

(** ** The image *)




(** * Further properties of the script *)

(** ** Runs of [main] *)

Lemma built_key_nonempty (now_iso : str) (data : pyval) (key entry : str) :
  truthy data = true ->
  build_md_entry now_iso data = Ok (Some (key, entry)) ->
  truthy (PyStr key) = true.
Proof.
  intros Ht Hb. unfold build_md_entry in Hb. bind_inv Hb.
  destruct (build_md_lines_inv _ _ Ht E)
    as (daily & dp & tp & emoji & text & temp & wind & _ & _ & ->).
  injection Hb as <- _. simpl. destruct (py_str dp); reflexivity.
Qed.

(** From the dedup check on, [main] is the Log Writer followed by
    [build_svg]. *)
Lemma main_after_build (r : response) (now_iso : str) (w : world)
    (data : pyval) (key entry : str) :
  fst (fetch_weather r w) = Ok data ->
  truthy data = true ->
  build_md_entry now_iso data = Ok (Some (key, entry)) ->
  main r now_iso w
  = (log_writer key entry ;;; build_svg data ;;; ret 0%Z)
      (snd (fetch_weather r w)).
Proof.
  intros Hf Ht Hb. pose proof (built_key_nonempty _ _ Ht Hb) as Hk.
  unfold main. unfold bindM at 1.
  destruct (fetch_weather r w) as [[d|e] w1]; simpl in Hf;
    [injection Hf as ->|discriminate].
  rewrite Ht. simpl. unfold bindM at 1, lift. rewrite Hb.
  destruct key as [|c key']; [discriminate Hk|]. reflexivity.
Qed.

Lemma log_writer_spec (key entry : str) (w : world) :
  md_open_fails os = false ->
  md_write_fails os = false ->
  fst (log_writer key entry w) = Ok tt /\
  md (snd (log_writer key entry w))
  = (if key_found key w then md w else Some (contents (md w) ++ entry)) /\
  svg (snd (log_writer key entry w)) = svg w /\
  art_dir (snd (log_writer key entry w)) = art_dir w.
Proof.
  intros Ho Hw. unfold key_found. run.
  destruct (md w) as [txt|]; simpl.
  - destruct (md_read_fails os); simpl.
    + rewrite Ho; simpl. rewrite Hw; simpl. now repeat split.
    + destruct (contains key txt); simpl; [now repeat split|].
      rewrite Ho; simpl. rewrite Hw; simpl. now repeat split.
  - rewrite Ho; simpl. rewrite Hw; simpl. now repeat split.
Qed.

Lemma build_svg_spec (data : pyval) (text : str) (w : world) :
  truthy data = true ->
  svg_text data = Ok text ->
  svg_mkdir_fails os = false ->
  svg_open_fails os = false ->
  svg_write_fails os = false ->
  fst (build_svg data w) = Ok tt /\
  svg (snd (build_svg data w)) = Some text /\
  art_dir (snd (build_svg data w)) = true /\
  md (snd (build_svg data w)) = md w.
Proof.
  intros Ht Hs H1 H2 H3. run. rewrite Ht, Hs; simpl.
  rewrite H1; simpl. rewrite H2; simpl. rewrite H3; simpl. now repeat split.
Qed.

(** X1.  When the dedup check does not find the key (the document is
    missing, cannot be read, or does not hold the key) and the append
    succeeds, a run leaves the prior contents followed by the block in
    [weather.md]; on a missing document that is the block alone. *)
Theorem main_appends_unless_found (r : response) (now_iso : str) (w : world)
    (data : pyval) (key entry : str) :
  fst (fetch_weather r w) = Ok data ->
  truthy data = true ->
  build_md_entry now_iso data = Ok (Some (key, entry)) ->
  md_open_fails os = false ->
  md_write_fails os = false ->
  key_found key w = false ->
  md (snd (main r now_iso w)) = Some (contents (md w) ++ entry) /\
  (md w = None -> md (snd (main r now_iso w)) = Some entry).
Proof.
  intros Hf Ht Hb Ho Hw Hnf.
  assert (H : md (snd (main r now_iso w)) = Some (contents (md w) ++ entry)).
  { rewrite (main_after_build _ _ _ Hf Ht Hb).
    pose proof (fetch_weather_files r w) as (_ & Hmd & _).
    set (w1 := snd (fetch_weather r w)) in *.
    destruct (log_writer_spec key entry w1 Ho Hw) as (Hr & Hm & _).
    assert (Hnf1 : key_found key w1 = false)
      by (unfold key_found in *; now rewrite Hmd).
    rewrite Hnf1, Hmd in Hm.
    unfold bindM at 1.
    destruct (log_writer key entry w1) as [[[]|e] w2]; simpl in *;
      [|discriminate].
    unfold bindM. pose proof (build_svg_md data w2) as Hsvg.
    destruct (build_svg data w2) as [[[]|e] w3]; simpl in *; congruence. }
  split; [exact H|]. intros Hnone. rewrite H, Hnone. reflexivity.
Qed.


Lemma key_found_md (key : str) (w w' : world) :
  md w' = md w -> key_found key w' = key_found key w.
Proof. unfold key_found. now intros ->. Qed.

(** The contents of [weather.md] after a run whose append succeeds. *)
Lemma main_md (r : response) (now_iso : str) (w : world)
    (data : pyval) (key entry : str) :
  fst (fetch_weather r w) = Ok data ->
  truthy data = true ->
  build_md_entry now_iso data = Ok (Some (key, entry)) ->
  md_open_fails os = false ->
  md_write_fails os = false ->
  md (snd (main r now_iso w))
  = (if key_found key w then md w else Some (contents (md w) ++ entry)).
Proof.
  intros Hf Ht Hb Ho Hw.
  rewrite (main_after_build _ _ _ Hf Ht Hb).
  pose proof (fetch_weather_files r w) as (_ & Hmd & _).
  set (w1 := snd (fetch_weather r w)) in *.
  destruct (log_writer_spec key entry w1 Ho Hw) as (Hr & Hm & _).
  rewrite (@key_found_md key w w1 Hmd), Hmd in Hm.
  unfold bindM at 1.
  destruct (log_writer key entry w1) as [[[]|e] w2]; simpl in *;
    [|discriminate].
  unfold bindM. pose proof (build_svg_md data w2) as Hsvg.
  destruct (build_svg data w2) as [[[]|e] w3]; simpl in *; congruence.
Qed.


Lemma build_md_entry_some (now_iso : str) (data : pyval)
    (r : option (str * str)) :
  truthy data = true ->
  build_md_entry now_iso data = Ok r ->
  exists key entry, r = Some (key, entry).
Proof.
  intros Ht Hb. unfold build_md_entry in Hb. bind_inv Hb.
  destruct (build_md_lines_inv _ _ Ht E)
    as (daily & dp & tp & emoji & text & temp & wind & _ & _ & ->).
  injection Hb as <-. now eexists; eexists.
Qed.

(** X3.  Whenever [main] returns, its status is 2 or 0: 2 exactly when
    the fetched data is falsy ([None], but also an empty object, array or
    string, zero or [false]), and then no file was touched; 0 exactly
    when the data is truthy. *)
Theorem main_exit_status (r : response) (now_iso : str) (w : world)
    (code : Z) :
  fst (main r now_iso w) = Ok code ->
  exists data,
    fst (fetch_weather r w) = Ok data /\
    ((truthy data = false /\ code = 2%Z /\
      md (snd (main r now_iso w)) = md w /\
      svg (snd (main r now_iso w)) = svg w /\
      file_ops (snd (main r now_iso w)) = file_ops w)
     \/ (truthy data = true /\ code = 0%Z)).
Proof.
  intros Hm.
  pose proof (fetch_weather_files r w) as (_ & Hmd & Hsvg & _ & Hops).
  unfold main, bindM in *.
  destruct (fetch_weather r w) as [[data|e] w1]; simpl in *;
    [|discriminate].
  exists data. split; [reflexivity|].
  destruct (truthy data) eqn:Ht; simpl in *.
  - right. split; [reflexivity|]. unfold lift in Hm.
    destruct (build_md_entry now_iso data) as [b|e] eqn:Hb; [|discriminate].
    destruct (build_md_entry_some _ _ Ht Hb) as (key & entry & ->).
    pose proof (built_key_nonempty _ _ Ht Hb) as Hk.
    destruct key as [|c key']; [discriminate Hk|]. simpl in Hm.
    destruct (log_writer (c :: key') entry w1) as [[[]|e] w2];
      [|discriminate].
    destruct (build_svg data w2) as [[[]|e] w3]; [|discriminate].
    simpl in Hm. now injection Hm as <-.
  - left. injection Hm as <-. now repeat split.
Qed.

(** X4.  The image is rewritten whether or not the append happened: on a
    response both builders accept, with working writes, [main] returns 0
    and [art/weather.svg] holds exactly the new image text, whatever the
    file held before and whatever the dedup check answered. *)
Theorem main_always_writes_svg (r : response) (now_iso : str) (w : world)
    (data : pyval) (key entry text : str) :
  fst (fetch_weather r w) = Ok data ->
  truthy data = true ->
  build_md_entry now_iso data = Ok (Some (key, entry)) ->
  svg_text data = Ok text ->
  md_open_fails os = false ->
  md_write_fails os = false ->
  svg_mkdir_fails os = false ->
  svg_open_fails os = false ->
  svg_write_fails os = false ->
  fst (main r now_iso w) = Ok 0%Z /\
  svg (snd (main r now_iso w)) = Some text /\
  art_dir (snd (main r now_iso w)) = true.
Proof.
  intros Hf Ht Hb Hs Ho Hw H1 H2 H3.
  rewrite (main_after_build _ _ _ Hf Ht Hb).
  set (w1 := snd (fetch_weather r w)).
  destruct (log_writer_spec key entry w1 Ho Hw) as (Hr & _).
  unfold bindM.
  destruct (log_writer key entry w1) as [[[]|e] w2]; simpl in *;
    [|discriminate].
  destruct (@build_svg_spec data text w2 Ht Hs H1 H2 H3)
    as (Hr2 & Hsv & Hart & _).
  destruct (build_svg data w2) as [[[]|e] w3]; simpl in *;
    [|discriminate].
  now repeat split.
Qed.


(** ** The log entry, further *)

Lemma icon_line_not_precip (emoji text : str) :
  In (emoji, text) all_pairs ->
  starts_with precip_label (emoji ++ lit " " ++ text) = false.
Proof.
  unfold all_pairs. simpl.
  intros H. repeat destruct H as [H|H]; try contradiction;
    injection H as <- <-; reflexivity.
Qed.

Lemma md_lines_without_precip (date_part time_part : pyval)
    (emoji text : str) (temp_now tmax tmin wind : pyval) :
  In (emoji, text) all_pairs ->
  forall line,
    In line (md_lines date_part time_part emoji text temp_now tmax tmin
               PyNone wind) ->
    starts_with precip_label line = false.
Proof.
  intros Hp line Hin. unfold md_lines in Hin. simpl is_none in Hin.
  repeat (apply in_app_or in Hin; destruct Hin as [Hin|Hin]).
  - destruct Hin as [<-|[<-|[]]]; [reflexivity | now apply icon_line_not_precip].
  - destruct (is_none temp_now); simpl in Hin; [contradiction|].
    destruct Hin as [<-|[]]. reflexivity.
  - destruct (negb (is_none tmax) && negb (is_none tmin)); simpl in Hin;
      [|contradiction].
    destruct Hin as [<-|[]]. reflexivity.
  - destruct Hin.
  - destruct (is_none wind); simpl in Hin; [contradiction|].
    destruct Hin as [<-|[]]. reflexivity.
  - destruct Hin as [<-|[]]. reflexivity.
Qed.

(** X6.  The three [daily] reads share one [try]: when the read of the
    maximum or of the minimum raises (an empty array, a value that is not
    a sequence), the precipitation is not read either, and the block has
    no "Precipitation (today)" line even if the response carries a
    precipitation sum. *)
Theorem lookup_failure_drops_precipitation (now_iso : str)
    (data daily : pyval) (key : str) (lines : list str) :
  build_md_lines now_iso data = Ok (Some (key, lines)) ->
  py_get data k_daily (PyDict []) = Ok daily ->
  (exists e, daily_first daily k_tmax = Raise e)
  \/ (exists e, daily_first daily k_tmin = Raise e) ->
  forall line, In line lines -> starts_with precip_label line = false.
Proof.
  intros Hb Hd Hraise.
  pose proof (build_md_lines_truthy _ _ Hb) as Ht.
  destruct (build_md_lines_inv _ _ Ht Hb)
    as (daily' & dp & tp & emoji & text & temp & wind & Hd' & Hp & Hr).
  rewrite Hd in Hd'. injection Hd' as <-. injection Hr as _ ->.
  assert (Hnone : snd (read_daily daily) = PyNone).
  { unfold read_daily. destruct Hraise as [[e He]|[e He]].
    - now rewrite He.
    - rewrite He. now destruct (daily_first daily k_tmax). }
  rewrite Hnone. now apply md_lines_without_precip.
Qed.

Lemma nth_error_split_at {A : Type} (n : nat) (l : list A) (x : A) :
  nth_error l n = Some x -> firstn n l ++ x :: skipn (S n) l = l.
Proof.
  revert l; induction n as [|n IH]; intros [|y l]; simpl; try discriminate.
  - now intros [= ->].
  - intros H. f_equal. now apply IH.
Qed.

(** The dedup key when the timestamp the builder uses is the string [s]. *)
Lemma key_of_string_time (now_iso : str) (data cw t : pyval) (s key : str)
    (lines : list str) :
  truthy data = true ->
  py_get data k_current_weather (PyDict []) = Ok cw ->
  py_get cw k_time PyNone = Ok t ->
  (if truthy t then t else PyStr now_iso) = PyStr s ->
  build_md_lines now_iso data = Ok (Some (key, lines)) ->
  key = firstn 10 s ++ [letter_T]
        ++ (if contains [letter_T] s then skipn 11 s
            else firstn 8 (skipn 11 s)).
Proof.
  intros Ht Hcw Htime Hnow Hb.
  unfold build_md_lines in Hb. rewrite Ht, Hcw in Hb. simpl in Hb.
  bind_inv Hb. rewrite Htime in Hb. simpl in Hb. rewrite Hnow in Hb.
  simpl in Hb.
  destruct (contains [84%N] s) eqn:Hc; simpl in Hb;
    do 3 bind_inv Hb;
    destruct (read_daily _) as [[tmax tmin] precip];
    bind_inv Hb; destruct a3 as [emoji text];
    injection Hb as <- _; unfold letter_T; rewrite Hc; reflexivity.
Qed.

(** X7.  Round trip of the timestamp: when the reading's [time] is a
    string whose eleventh character is "T" (the ISO form the API sends),
    the dedup key is that string itself. *)
Theorem dedup_key_is_timestamp (now_iso : str) (data cw : pyval)
    (s key : str) (lines : list str) :
  truthy data = true ->
  py_get data k_current_weather (PyDict []) = Ok cw ->
  py_get cw k_time PyNone = Ok (PyStr s) ->
  nth_error s 10 = Some letter_T ->
  build_md_lines now_iso data = Ok (Some (key, lines)) ->
  key = s.
Proof.
  intros Ht Hcw Htime HT Hb.
  assert (Hne : truthy (PyStr s) = true) by (destruct s; [discriminate HT|reflexivity]).
  assert (Hnow : (if truthy (PyStr s) then PyStr s else PyStr now_iso) = PyStr s)
    by now rewrite Hne.
  rewrite (@key_of_string_time now_iso data cw (PyStr s) s key lines
             Ht Hcw Htime Hnow Hb).
  assert (Hc : contains [letter_T] s = true).
  { apply contains_iff. exists (firstn 10 s), (skipn 11 s).
    symmetry. now apply nth_error_split_at. }
  rewrite Hc. now apply nth_error_split_at.
Qed.

(** X8.  Clock fallback: when [time] is missing from the reading, or is
    falsy ([null], the empty string), the key comes from the clock alone:
    with an ISO clock string it is that string, whatever else the reading
    holds. *)
Theorem dedup_key_from_clock (now_iso : str) (data cw t : pyval)
    (key : str) (lines : list str) :
  truthy data = true ->
  py_get data k_current_weather (PyDict []) = Ok cw ->
  py_get cw k_time PyNone = Ok t ->
  truthy t = false ->
  nth_error now_iso 10 = Some letter_T ->
  build_md_lines now_iso data = Ok (Some (key, lines)) ->
  key = now_iso.
Proof.
  intros Ht Hcw Htime Hf HT Hb.
  assert (Hnow : (if truthy t then t else PyStr now_iso) = PyStr now_iso)
    by now rewrite Hf.
  rewrite (@key_of_string_time now_iso data cw t now_iso key lines
             Ht Hcw Htime Hnow Hb).
  assert (Hc : contains [letter_T] now_iso = true).
  { apply contains_iff. exists (firstn 10 now_iso), (skipn 11 now_iso).
    symmetry. now apply nth_error_split_at. }
  rewrite Hc. now apply nth_error_split_at.
Qed.

Lemma join_snoc (sep : str) (l : list str) (y : str) :
  l <> [] -> join sep (l ++ [y]) = join sep l ++ sep ++ y.
Proof.
  induction l as [|x [|x' l'] IH]; intros Hne; [congruence|reflexivity|].
  change (join sep ((x :: x' :: l') ++ [y]))
    with (x ++ sep ++ join sep ((x' :: l') ++ [y])).
  rewrite IH by discriminate.
  change (join sep (x :: x' :: l')) with (x ++ sep ++ join sep (x' :: l')).
  now rewrite <- !app_assoc.
Qed.

(** X9.  Every block [build_md_entry] returns opens with the bold marker
    of the header and closes with the attribution line and the delimiter,
    whatever the reading holds. *)
Theorem entry_frame (now_iso : str) (data : pyval) (key entry : str) :
  build_md_entry now_iso data = Ok (Some (key, entry)) ->
  exists body,
    entry = lit "**" ++ body ++ blank_line ++ footer ++ delimiter.
Proof.
  intros Hb. unfold build_md_entry in Hb. bind_inv Hb.
  destruct a as [[key' lines]|]; [|discriminate]. injection Hb as _ <-.
  pose proof (build_md_lines_truthy _ _ E) as Ht.
  destruct (build_md_lines_inv _ _ Ht E)
    as (daily & dp & tp & emoji & text & temp & wind & _ & _ & Hr).
  injection Hr as _ ->. unfold md_lines.
  set (icon := emoji ++ lit " " ++ text).
  set (A := if negb (is_none temp) then _ else _).
  set (B := if negb (is_none _) && _ then _ else _).
  set (C := if negb (is_none (snd _)) then _ else _).
  set (D := if negb (is_none wind) then _ else _).
  replace ([md_header dp tp; icon] ++ A ++ B ++ C ++ D ++ [footer])
    with ((md_header dp tp :: icon :: A ++ B ++ C ++ D) ++ [footer])
    by (cbn [app]; now rewrite <- !app_assoc).
  rewrite join_snoc by discriminate.
  change (join blank_line (md_header dp tp :: icon :: A ++ B ++ C ++ D))
    with (md_header dp tp ++ blank_line
          ++ join blank_line (icon :: A ++ B ++ C ++ D)).
  exists ((py_str dp ++ lit " " ++ py_str tp
           ++ lit " — Alamar, Havana (Cuba)**")
          ++ blank_line ++ join blank_line (icon :: A ++ B ++ C ++ D)).
  unfold md_header. now rewrite <- !app_assoc.
Qed.

(** ** The classifier, further *)

(** X10.  The unknown pair stands for an absent code only: on any value
    the classifier returns it exactly when the code is [None]. *)
Theorem unknown_iff_none (code : pyval) :
  weather_code_to_icon_and_text code = Ok unknown_pair <-> code = PyNone.
Proof.
  split; [|intros ->; reflexivity].
  unfold weather_code_to_icon_and_text.
  destruct (is_none code) eqn:Hn; [now destruct code|].
  intros H. bind_inv H.
  repeat match type of H with
  | (if ?c then _ else _) = _ => destruct c
  end; vm_compute in H; discriminate H.
Qed.

(** ** The image, further *)

(** X11.  The log entry and the image show the same classification: the
    second line of the block is the image's glyph, a space and the
    image's label. *)
Theorem md_and_svg_share_icon (now_iso : str) (data : pyval) (key : str)
    (lines : list str) (l : svg_locals) :
  build_md_lines now_iso data = Ok (Some (key, lines)) ->
  svg_read data = Ok l ->
  nth_error lines 1 = Some (sv_emoji l ++ lit " " ++ sv_text l).
Proof.
  intros Hb Hs. unfold build_md_lines in Hb.
  destruct (truthy data); simpl in Hb; [|discriminate].
  do 9 bind_inv Hb.
  destruct (read_daily a0) as [[tmax tmin] precip].
  bind_inv Hb. destruct a8 as [emoji text]. injection Hb as _ <-.
  unfold svg_read in Hs. rewrite E, E0 in Hs. cbn [bind] in Hs.
  rewrite E7 in Hs. do 4 bind_inv Hs. rewrite E8 in Hs. simpl in Hs.
  do 4 bind_inv Hs. injection Hs as <-. reflexivity.
Qed.

Lemma replace_char_drops (a b : N) (s : str) :
  a <> b -> ~ In a (replace_char a b s).
Proof.
  intros Hab Hin. unfold replace_char in Hin.
  apply in_map_iff in Hin. destruct Hin as (c & Hc & _).
  destruct (N.eqb_spec c a); congruence.
Qed.

Lemma in_firstn {A : Type} (n : nat) (l : list A) (x : A) :
  In x (firstn n l) -> In x l.
Proof.
  revert l; induction n as [|n IH]; intros [|y l]; simpl; try tauto.
  intros [->|H]; [now left | right; now apply IH].
Qed.

(** X12.  The timestamp in the image title is a string of at most 19
    characters without the letter "T": every "T" of the reading's time
    has become a space. *)
Theorem svg_time_str_shape (data : pyval) (l : svg_locals) :
  svg_read data = Ok l ->
  exists s,
    sv_time_str l = PyStr s /\ (List.length s <= 19)%nat /\ ~ In letter_T s.
Proof.
  intros Hs. unfold svg_read in Hs. do 12 bind_inv Hs.
  injection Hs as <-. cbn [sv_time_str].
  destruct a1; try discriminate E2.
  unfold py_replace_T in E2. injection E2 as <-.
  unfold py_slice, slice in E3. injection E3 as <-.
  exists (firstn 19 (replace_char letter_T 32 s)).
  split; [reflexivity|]. split.
  - apply firstn_le_length.
  - intros Hin. apply (@replace_char_drops letter_T 32%N s); [discriminate|].
    now apply in_firstn in Hin.
Qed.

(** X13.  [build_svg] needs a string [time]: when [current_weather] binds
    [time] to anything else ([null] included) the image text is never
    built, [AttributeError] is raised and no file is touched, although
    [build_md_entry] takes the clock instead for a falsy [time]. *)
Theorem svg_raises_without_string_time (data cw t : pyval) (w : world) :
  truthy data = true ->
  py_get data k_current_weather (PyDict []) = Ok cw ->
  py_get cw k_time (PyStr []) = Ok t ->
  (forall s, t <> PyStr s) ->
  svg_text data = Raise AttributeError /\
  build_svg data w = (Raise AttributeError, w).
Proof.
  intros Ht Hcw Htime Hns.
  assert (Hs : svg_text data = Raise AttributeError).
  { unfold svg_text, svg_read. rewrite Hcw. simpl.
    destruct data; try discriminate Hcw. simpl.
    rewrite Htime. simpl.
    destruct t; try reflexivity. now destruct (Hns s). }
  split; [exact Hs|].
  unfold build_svg, bindM, lift. now rewrite Ht, Hs.
Qed.

(** X14.  [build_svg] lays the image out on every response whose
    [current_weather] and [daily] are objects, whose [time] is a string or
    missing, whose [weathercode] is an integer, [null] or missing, and
    whose three [daily] fields are each missing or a non-empty array. *)
Theorem svg_text_returns (data : pyval) :
  svg_shaped data -> exists text, svg_text data = Ok text.
Proof.
  intros (c & d & Hcw & Hd & Htime & Hcode & Hmax & Hmin & Hpre).
  unfold svg_text, svg_read. rewrite Hcw, Hd. simpl.
  assert (Hfirst : forall k, nonempty_or_missing d k ->
            exists v, daily_first (PyDict d) k = Ok v).
  { intros k Hk. unfold nonempty_or_missing in Hk.
    unfold daily_first. simpl.
    destruct (dict_get d k) as [[| | | | |[|x l]|]|]; try contradiction;
      simpl; now eexists. }
  destruct (Hfirst _ Hmax) as [vmax ->].
  destruct (Hfirst _ Hmin) as [vmin ->].
  destruct (Hfirst _ Hpre) as [vpre ->].
  destruct (dict_get c k_time) as [[| | | |s| |]|]; try contradiction; simpl;
    (destruct (dict_get c k_weathercode) as [[| |z| | | |]|];
     try contradiction; simpl;
     [now eexists
     |destruct (classifier_int_total z) as [pair ->]; simpl; now eexists
     |now eexists]).
Qed.

(** ** Failures and order of a run *)

(** X15.  A truthy body that is not a JSON object (an array, a string, a
    number) is not "no data": [build_md_entry] calls [data.get] on it,
    and [main] ends by [AttributeError] before any file operation instead
    of returning 2. *)
Theorem main_raises_on_non_object (r : response) (now_iso : str) (w : world)
    (data : pyval) :
  fst (fetch_weather r w) = Ok data ->
  truthy data = true ->
  (forall d, data <> PyDict d) ->
  fst (main r now_iso w) = Raise AttributeError /\
  md (snd (main r now_iso w)) = md w /\
  svg (snd (main r now_iso w)) = svg w /\
  file_ops (snd (main r now_iso w)) = file_ops w.
Proof.
  intros Hf Ht Hnd.
  pose proof (fetch_weather_files r w) as (_ & Hmd & Hsvg & _ & Hops).
  assert (Hb : build_md_entry now_iso data = Raise AttributeError).
  { unfold build_md_entry, build_md_lines. rewrite Ht. simpl.
    destruct data; try reflexivity. now destruct (Hnd d). }
  unfold main, bindM, lift in *.
  destruct (fetch_weather r w) as [[d|e] w1]; simpl in *;
    [injection Hf as ->|discriminate].
  rewrite Ht, Hb. simpl. now repeat split.
Qed.

(** X16.  A failure of [build_svg] comes after the append and undoes
    nothing: when the key is not found, the append succeeds and the image
    text cannot be built, [main] ends by that exception with the block
    already appended and the image file as it was. *)
Theorem svg_failure_keeps_append (r : response) (now_iso : str) (w : world)
    (data : pyval) (key entry : str) (e : exn) :
  fst (fetch_weather r w) = Ok data ->
  truthy data = true ->
  build_md_entry now_iso data = Ok (Some (key, entry)) ->
  svg_text data = Raise e ->
  md_open_fails os = false ->
  md_write_fails os = false ->
  key_found key w = false ->
  fst (main r now_iso w) = Raise e /\
  md (snd (main r now_iso w)) = Some (contents (md w) ++ entry) /\
  svg (snd (main r now_iso w)) = svg w.
Proof.
  intros Hf Ht Hb Hs Ho Hw Hnf.
  pose proof (main_md r now_iso w Hf Ht Hb Ho Hw) as Hmd'.
  rewrite Hnf in Hmd'.
  split; [|split; [exact Hmd'|]].
  - rewrite (main_after_build _ _ _ Hf Ht Hb).
    set (w1 := snd (fetch_weather r w)).
    destruct (log_writer_spec key entry w1 Ho Hw) as (Hr & _).
    unfold bindM.
    destruct (log_writer key entry w1) as [[[]|e'] w2]; simpl in *;
      [|discriminate].
    unfold build_svg, bindM, lift. now rewrite Ht, Hs.
  - rewrite (main_after_build _ _ _ Hf Ht Hb).
    pose proof (fetch_weather_files r w) as (_ & _ & Hsvg & _).
    set (w1 := snd (fetch_weather r w)) in *.
    destruct (log_writer_spec key entry w1 Ho Hw) as (Hr & _ & Hsv & _).
    unfold bindM.
    destruct (log_writer key entry w1) as [[[]|e'] w2]; simpl in *;
      [|discriminate].
    unfold build_svg, bindM, lift. rewrite Ht, Hs. simpl. congruence.
Qed.

(** X17.  Order of the file operations in a first successful run: the
    existence test, the append to [weather.md], and only then the three
    operations on [art/weather.svg]. *)
Theorem first_run_file_ops (r : response) (now_iso : str) (w : world)
    (data : pyval) (key entry text : str) :
  fst (fetch_weather r w) = Ok data ->
  truthy data = true ->
  build_md_entry now_iso data = Ok (Some (key, entry)) ->
  svg_text data = Ok text ->
  md w = None ->
  md_open_fails os = false ->
  md_write_fails os = false ->
  svg_mkdir_fails os = false ->
  svg_open_fails os = false ->
  svg_write_fails os = false ->
  file_ops (snd (main r now_iso w))
  = file_ops w
    ++ [MdExists; MdMkdirParent; MdOpenAppend; MdAppend entry;
        SvgMkdirParent; SvgOpen; SvgPut text].
Proof.
  intros Hf Ht Hb Hs Hnone Ho Hw H1 H2 H3.
  rewrite (main_after_build _ _ _ Hf Ht Hb).
  pose proof (fetch_weather_files r w) as (_ & Hmd & _ & _ & Hops).
  remember (snd (fetch_weather r w)) as w1 eqn:Hw1. clear Hw1.
  simpl in Hmd, Hops. rewrite Hnone in Hmd. run. rewrite Hmd. simpl.
  rewrite Ho. simpl. rewrite Hw. simpl.
  rewrite Ht, Hs. simpl. rewrite H1. simpl. rewrite H2. simpl.
  rewrite H3. simpl. rewrite Hops. now rewrite <- !app_assoc.
Qed.

(** X18.  What a failed fetch prints: the request line, one warning with
    the exception's text, and the no-data error, in that order and
    nothing else. *)
Theorem fetch_error_log (msg now_iso : str) (w : world) :
  stdout (snd (main (FetchError msg) now_iso w))
  = stdout w
    ++ [lit "[INFO] Fetching: " ++ request_url;
        lit "[WARN] fetch error: " ++ msg;
        no_data_msg].
Proof. run. now rewrite <- !app_assoc. Qed.

(** X19.  A field that is present gets its line, zero or not: the tests
    are [is not None], so a temperature, wind speed or precipitation of 0
    is shown, and the Max/Min line is there when both extremes are. *)
Theorem present_fields_get_lines (now_iso : str) (data cw daily : pyval)
    (key : str) (lines : list str) (temp wind tmax tmin precip : pyval) :
  build_md_lines now_iso data = Ok (Some (key, lines)) ->
  py_get data k_current_weather (PyDict []) = Ok cw ->
  py_get data k_daily (PyDict []) = Ok daily ->
  py_get cw k_temperature PyNone = Ok temp ->
  py_get cw k_windspeed PyNone = Ok wind ->
  daily_first daily k_tmax = Ok tmax ->
  daily_first daily k_tmin = Ok tmin ->
  daily_first daily k_precip = Ok precip ->
  (temp <> PyNone -> exists time_part, In (now_line temp time_part) lines) /\
  (wind <> PyNone -> In (wind_line wind) lines) /\
  (precip <> PyNone -> In (precip_line precip) lines) /\
  (tmax <> PyNone -> tmin <> PyNone -> In (max_min_line tmax tmin) lines).
Proof.
  intros Hb Hcw Hd Htemp Hwind Hmax Hmin Hpre.
  unfold build_md_lines in Hb.
  destruct (truthy data); simpl in Hb; [|discriminate].
  rewrite Hcw, Hd in Hb. cbn [bind] in Hb.
  rewrite Htemp, Hwind in Hb. do 4 bind_inv Hb.
  unfold read_daily in Hb. rewrite Hmax, Hmin, Hpre in Hb.
  do 2 bind_inv Hb. destruct a4 as [emoji text].
  injection Hb as _ <-. unfold md_lines.
  assert (Hnn : forall v, v <> PyNone -> negb (is_none v) = true)
    by (intros v Hv; destruct v; congruence || reflexivity).
  repeat split.
  - intros Hv. exists a2. rewrite (Hnn _ Hv).
    apply in_or_app; right. apply in_or_app; left. now left.
  - intros Hv. rewrite (Hnn _ Hv).
    do 4 (apply in_or_app; right). apply in_or_app; left. now left.
  - intros Hv. rewrite (Hnn _ Hv).
    do 3 (apply in_or_app; right). apply in_or_app; left. now left.
  - intros Hv1 Hv2. rewrite (Hnn _ Hv1), (Hnn _ Hv2).
    do 2 (apply in_or_app; right). apply in_or_app; left. now left.
Qed.

End Script.

(** * Properties of concrete runs *)

Ltac conjuncts := repeat match goal with |- _ /\ _ => split end.

(** C7.  End-to-end success: for the example response, [build_md_entry]
    returns the key "2024-01-01T12:00" and the block made of the header
    and the five lines below, the attribution line and the delimiter, and
    [main], run where [weather.md] is missing or empty and every write
    succeeds, returns 0 and leaves exactly that block in the file. *)
Theorem end_to_end_success (repr_str : str -> str)
    (int_of_str : str -> option Z) (now_iso : str) (read_fails : bool) :
  let lines :=
    [lit "**2024-01-01 12:00 — Alamar, Havana (Cuba)**";
     lit "☀️ Clear sky";
     lit "Now: 24.5 °C (measured at 12:00)";
     lit "Max/Min today: 27.0 °C / 20.0 °C";
     lit "Precipitation (today): 0.0 mm";
     lit "Wind speed: 10.0 km/h";
     lit "_Source: Open-Meteo API_"] in
  let entry := join blank_line lines ++ delimiter in
  let run c :=
    main repr_str int_of_str (writes_ok read_fails)
      (FetchBody sample_response) now_iso (start c None false) in
  build_md_lines repr_str int_of_str now_iso sample_response
  = Ok (Some (lit "2024-01-01T12:00", lines)) /\
  build_md_entry repr_str int_of_str now_iso sample_response
  = Ok (Some (lit "2024-01-01T12:00", entry)) /\
  (exists body,
     entry = body ++ lit "_Source: Open-Meteo API_"
             ++ newline ++ newline ++ lit "---" ++ newline ++ newline) /\
  fst (run None) = Ok 0%Z /\ md (snd (run None)) = Some entry /\
  fst (run (Some [])) = Ok 0%Z /\ md (snd (run (Some []))) = Some entry.
Proof.
  intros lines entry run.
  assert (Hlines : build_md_lines repr_str int_of_str now_iso sample_response
                   = Ok (Some (lit "2024-01-01T12:00", lines)))
    by (vm_compute; reflexivity).
  assert (Hentry : build_md_entry repr_str int_of_str now_iso sample_response
                   = Ok (Some (lit "2024-01-01T12:00", entry)))
    by (vm_compute; reflexivity).
  split; [exact Hlines|]. split; [exact Hentry|]. split.
  - exists (join blank_line (firstn 6 lines) ++ blank_line).
    vm_compute; reflexivity.
  - subst run; conjuncts; destruct read_fails; vm_compute; reflexivity.
Qed.

(** C4.  On the example response with the day's maxima bound to an empty
    array, [build_md_entry] returns an entry but [build_svg] raises
    [IndexError] before it touches a file, so [main] ends by that
    exception after the append; on absent data [build_svg] returns
    without an operation. *)
Theorem build_svg_raises_on_empty_array (repr_str : str -> str)
    (int_of_str : str -> option Z) (os : faults) (now_iso : str)
    (w : world) :
  (exists key entry,
     build_md_entry repr_str int_of_str now_iso empty_max_response
     = Ok (Some (key, entry))) /\
  svg_text repr_str int_of_str empty_max_response = Raise IndexError /\
  build_svg repr_str int_of_str os empty_max_response w
  = (Raise IndexError, w) /\
  fst (main repr_str int_of_str (writes_ok false)
         (FetchBody empty_max_response) now_iso (start None None false))
  = Raise IndexError /\
  build_svg repr_str int_of_str os PyNone w = (Ok tt, w).
Proof.
  assert (Hsvg : svg_text repr_str int_of_str empty_max_response
                 = Raise IndexError) by (vm_compute; reflexivity).
  conjuncts.
  - eexists; eexists; vm_compute; reflexivity.
  - exact Hsvg.
  - unfold build_svg, bindM, lift. rewrite Hsvg. reflexivity.
  - vm_compute; reflexivity.
  - reflexivity.
Qed.

(** After a first successful run the block in [weather.md] does not hold
    its own dedup key (the header separates date and time by a space, the
    key by "T"), so a second run on the same response appends the block
    again. *)
Remark second_run_appends_again (repr_str : str -> str)
    (int_of_str : str -> option Z) (now_iso : str) :
  let run w :=
    snd (main repr_str int_of_str (writes_ok false)
           (FetchBody sample_response) now_iso w) in
  exists entry,
    md (run fresh_world) = Some entry /\
    contains logged_key entry = false /\
    md (run (run fresh_world)) = Some (entry ++ entry).
Proof.
  intros run; subst run. eexists. conjuncts.
  - vm_compute; reflexivity.
  - vm_compute; reflexivity.
  - vm_compute; reflexivity.
Qed.

(** ** Instances *)

Lemma weather_code_total_and_ranges_witness :
  (51 <= 61 <= 67 \/ 80 <= 61 <= 82)%Z /\
  weather_code_to_icon_and_text no_int (PyInt 61) = Ok rain_pair.
Proof.
  split; [lia|].
  destruct (proj2 (weather_code_total_and_ranges no_int) 61%Z)
    as (_ & _ & _ & _ & H & _).
  apply H. lia.
Defined.

(** C2 as stated fails: the document holds the key, the read raises, and
    the Log Writer appends the block. *)
Lemma log_writer_appends_after_read_error :
  Substring logged_key (contents (md logged_world)) /\
  md (snd (log_writer (writes_ok true) logged_key (lit "block") logged_world))
  <> md logged_world.
Proof.
  split.
  - exists (lit "seen "), (lit " already"). vm_compute; reflexivity.
  - vm_compute. discriminate.
Defined.

Lemma log_writer_idempotent_witness :
  md logged_world = Some (lit "seen 2024-01-01T12:00 already") /\
  Substring logged_key (lit "seen 2024-01-01T12:00 already") /\
  md_read_fails (writes_ok false) = false /\
  fst (log_writer (writes_ok false) logged_key (lit "block") logged_world)
  = Ok tt /\
  md (snd (log_writer (writes_ok false) logged_key (lit "block") logged_world))
  = Some (lit "seen 2024-01-01T12:00 already").
Proof.
  assert (Hsub : Substring logged_key (lit "seen 2024-01-01T12:00 already")).
  { exists (lit "seen "), (lit " already"). vm_compute; reflexivity. }
  split; [reflexivity|]. split; [exact Hsub|]. split; [reflexivity|].
  destruct (@log_writer_idempotent (writes_ok false) logged_key (lit "block")
              (lit "seen 2024-01-01T12:00 already") logged_world
              eq_refl Hsub eq_refl) as (H1 & H2 & _).
  split; [exact H1 | exact H2].
Defined.

Lemma fetch_failure_atomic_witness :
  fst (try_fetch_json (FetchError (lit "timed out")) logged_world) = Ok PyNone /\
  fst (main q no_int (writes_ok false) (FetchError (lit "timed out")) []
         logged_world) = Ok 2%Z /\
  file_ops (snd (main q no_int (writes_ok false)
                   (FetchError (lit "timed out")) [] logged_world))
  = file_ops logged_world.
Proof.
  split; [reflexivity|].
  destruct (@fetch_failure_atomic q no_int (writes_ok false)
              (FetchError (lit "timed out")) [] logged_world eq_refl)
    as (H1 & _ & _ & _ & H2).
  split; [exact H1 | exact H2].
Defined.



Lemma max_min_line_both_or_neither_witness :
  build_md_lines q no_int [] sparse_response
  = Ok (Some (logged_key,
              [lit "**2024-01-01 12:00 — Alamar, Havana (Cuba)**";
               lit "🌧️ Rain"; footer])) /\
  py_get sparse_response k_daily (PyDict []) = Ok sparse_daily /\
  (reading_field sparse_daily k_tmax = PyNone \/
   reading_field sparse_daily k_tmin = PyNone) /\
  (forall line,
     In line [lit "**2024-01-01 12:00 — Alamar, Havana (Cuba)**";
              lit "🌧️ Rain"; footer] ->
     starts_with max_min_label line = false).
Proof.
  assert (Hb : build_md_lines q no_int [] sparse_response
               = Ok (Some (logged_key,
                      [lit "**2024-01-01 12:00 — Alamar, Havana (Cuba)**";
                       lit "🌧️ Rain"; footer])))
    by (vm_compute; reflexivity).
  assert (Hd : py_get sparse_response k_daily (PyDict []) = Ok sparse_daily)
    by reflexivity.
  assert (Ha : reading_field sparse_daily k_tmax = PyNone \/
               reading_field sparse_daily k_tmin = PyNone)
    by (left; reflexivity).
  conjuncts; auto.
  exact (proj1 (@max_min_line_both_or_neither q no_int [] sparse_response
                  sparse_daily _ _ Hb Hd Ha)).
Defined.

Lemma dedup_key_never_empty_witness :
  truthy sample_response = true /\
  well_shaped sample_response /\
  (exists key entry,
     build_md_entry q no_int [] sample_response = Ok (Some (key, entry))) /\
  (forall r,
     build_md_entry q no_int [] sample_response = Ok r ->
     exists key entry,
       r = Some (key, entry) /\ Substring (lit "T") key /\
       truthy (PyStr key) = true).
Proof.
  assert (Hs : well_shaped sample_response).
  { split; [reflexivity|]. eexists. split; [reflexivity|].
    split; [|exact I]. intros _. eexists. reflexivity. }
  destruct (@dedup_key_never_empty q no_int (writes_ok false) []
              sample_response eq_refl) as (H1 & H2 & _).
  split; [reflexivity|]. split; [exact Hs|]. split; [exact (H2 Hs)|exact H1].
Defined.

(** ** Instances of the further properties *)

Lemma sample_built :
  build_md_entry q no_int [] sample_response
  = Ok (Some (logged_key, sample_entry)).
Proof. vm_compute; reflexivity. Qed.

Lemma sample_built_lines :
  build_md_lines q no_int [] sample_response
  = Ok (Some (logged_key, sample_lines)).
Proof. vm_compute; reflexivity. Qed.

Lemma sample_svg_read : svg_read no_int sample_response = Ok sample_locals.
Proof. vm_compute; reflexivity. Qed.

Lemma sample_svg_text :
  svg_text q no_int sample_response = Ok (svg_render q sample_locals).
Proof. unfold svg_text. now rewrite sample_svg_read. Qed.

Lemma main_appends_unless_found_witness :
  fst (fetch_weather (FetchBody sample_response) fresh_world)
  = Ok sample_response /\
  truthy sample_response = true /\
  key_found (writes_ok false) logged_key fresh_world = false /\
  md (snd (main q no_int (writes_ok false) (FetchBody sample_response) []
             fresh_world))
  = Some sample_entry.
Proof.
  split; [reflexivity|]. split; [reflexivity|]. split; [reflexivity|].
  exact (proj2 (@main_appends_unless_found q no_int (writes_ok false)
                  (FetchBody sample_response) [] fresh_world sample_response
                  logged_key sample_entry eq_refl eq_refl sample_built
                  eq_refl eq_refl eq_refl) eq_refl).
Defined.


Lemma main_exit_status_witness :
  fst (main q no_int (writes_ok false) (FetchBody (PyDict [])) [] fresh_world)
  = Ok 2%Z /\
  exists data,
    fst (fetch_weather (FetchBody (PyDict [])) fresh_world) = Ok data /\
    ((truthy data = false /\ 2%Z = 2%Z /\
      md (snd (main q no_int (writes_ok false) (FetchBody (PyDict [])) []
                 fresh_world)) = md fresh_world /\
      svg (snd (main q no_int (writes_ok false) (FetchBody (PyDict [])) []
                  fresh_world)) = svg fresh_world /\
      file_ops (snd (main q no_int (writes_ok false) (FetchBody (PyDict []))
                       [] fresh_world)) = file_ops fresh_world)
     \/ (truthy data = true /\ 2%Z = 0%Z)).
Proof.
  split; [reflexivity|].
  exact (@main_exit_status q no_int (writes_ok false) (FetchBody (PyDict []))
           [] fresh_world 2%Z eq_refl).
Defined.

Lemma main_always_writes_svg_witness :
  svg_text q no_int sample_response = Ok (svg_render q sample_locals) /\
  key_found (writes_ok false) logged_key logged_world = true /\
  fst (main q no_int (writes_ok false) (FetchBody sample_response) []
         logged_world) = Ok 0%Z /\
  svg (snd (main q no_int (writes_ok false) (FetchBody sample_response) []
              logged_world)) = Some (svg_render q sample_locals).
Proof.
  split; [exact sample_svg_text|]. split; [vm_compute; reflexivity|].
  destruct (@main_always_writes_svg q no_int (writes_ok false)
              (FetchBody sample_response) [] logged_world sample_response
              logged_key sample_entry (svg_render q sample_locals)
              eq_refl eq_refl sample_built sample_svg_text
              eq_refl eq_refl eq_refl eq_refl eq_refl) as (H1 & H2 & _).
  split; [exact H1 | exact H2].
Defined.


Lemma empty_max_built_lines :
  build_md_lines q no_int [] empty_max_response
  = Ok (Some (logged_key, empty_max_lines)).
Proof. vm_compute; reflexivity. Qed.

Lemma lookup_failure_drops_precipitation_witness :
  py_get empty_max_response k_daily (PyDict []) = Ok empty_max_daily /\
  daily_first empty_max_daily k_tmax = Raise IndexError /\
  dict_get [(k_precip, PyList [float_lit "0.0" 0 false])] k_precip
  = Some (PyList [float_lit "0.0" 0 false]) /\
  (forall line,
     In line empty_max_lines -> starts_with precip_label line = false).
Proof.
  assert (Hd : py_get empty_max_response k_daily (PyDict [])
               = Ok empty_max_daily) by reflexivity.
  assert (He : daily_first empty_max_daily k_tmax = Raise IndexError)
    by reflexivity.
  split; [exact Hd|]. split; [exact He|]. split; [reflexivity|].
  exact (@lookup_failure_drops_precipitation q no_int [] empty_max_response
           empty_max_daily logged_key empty_max_lines empty_max_built_lines
           Hd (or_introl (ex_intro _ IndexError He))).
Defined.

Lemma dedup_key_is_timestamp_witness :
  py_get sample_response k_current_weather (PyDict []) = Ok sample_current /\
  py_get sample_current k_time PyNone = Ok (PyStr logged_key) /\
  nth_error logged_key 10 = Some letter_T /\
  logged_key = logged_key.
Proof.
  split; [reflexivity|]. split; [reflexivity|]. split; [reflexivity|].
  exact (@dedup_key_is_timestamp q no_int [] sample_response sample_current
           logged_key logged_key sample_lines eq_refl eq_refl eq_refl eq_refl
           sample_built_lines).
Defined.

Lemma timeless_built_lines :
  build_md_lines q no_int iso_clock timeless_response
  = Ok (Some (iso_clock, timeless_lines)).
Proof. vm_compute; reflexivity. Qed.

Lemma dedup_key_from_clock_witness :
  py_get timeless_response k_current_weather (PyDict []) = Ok timeless_current /\
  py_get timeless_current k_time PyNone = Ok PyNone /\
  truthy PyNone = false /\
  nth_error iso_clock 10 = Some letter_T /\
  iso_clock = iso_clock.
Proof.
  split; [reflexivity|]. split; [reflexivity|]. split; [reflexivity|].
  split; [reflexivity|].
  exact (@dedup_key_from_clock q no_int iso_clock timeless_response
           timeless_current PyNone iso_clock timeless_lines eq_refl eq_refl
           eq_refl eq_refl eq_refl timeless_built_lines).
Defined.

Lemma entry_frame_witness :
  build_md_entry q no_int [] sample_response
  = Ok (Some (logged_key, sample_entry)) /\
  exists body,
    sample_entry = lit "**" ++ body ++ blank_line ++ footer ++ delimiter.
Proof.
  split; [exact sample_built|].
  exact (@entry_frame q no_int [] sample_response logged_key sample_entry
           sample_built).
Defined.

Lemma md_and_svg_share_icon_witness :
  build_md_lines q no_int [] sample_response
  = Ok (Some (logged_key, sample_lines)) /\
  svg_read no_int sample_response = Ok sample_locals /\
  nth_error sample_lines 1
  = Some (sv_emoji sample_locals ++ lit " " ++ sv_text sample_locals).
Proof.
  split; [exact sample_built_lines|]. split; [exact sample_svg_read|].
  exact (@md_and_svg_share_icon q no_int [] sample_response logged_key
           sample_lines sample_locals sample_built_lines sample_svg_read).
Defined.

Lemma svg_time_str_shape_witness :
  svg_read no_int sample_response = Ok sample_locals /\
  exists s,
    sv_time_str sample_locals = PyStr s /\ (List.length s <= 19)%nat /\
    ~ In letter_T s.
Proof.
  split; [exact sample_svg_read|].
  exact (@svg_time_str_shape no_int sample_response sample_locals
           sample_svg_read).
Defined.

Lemma svg_raises_without_string_time_witness :
  truthy null_time_response = true /\
  py_get null_time_response k_current_weather (PyDict [])
  = Ok null_time_current /\
  py_get null_time_current k_time (PyStr []) = Ok PyNone /\
  (forall s, PyNone <> PyStr s) /\
  svg_text q no_int null_time_response = Raise AttributeError /\
  build_svg q no_int (writes_ok false) null_time_response fresh_world
  = (Raise AttributeError, fresh_world).
Proof.
  assert (Hns : forall s, PyNone <> PyStr s) by (intros s; discriminate).
  split; [reflexivity|]. split; [reflexivity|]. split; [reflexivity|].
  split; [exact Hns|].
  exact (@svg_raises_without_string_time q no_int (writes_ok false)
           null_time_response null_time_current PyNone fresh_world
           eq_refl eq_refl eq_refl Hns).
Defined.

Lemma svg_text_returns_witness :
  svg_shaped sample_response /\
  exists text, svg_text q no_int sample_response = Ok text.
Proof.
  assert (Hs : svg_shaped sample_response).
  { eexists; eexists. split; [reflexivity|]. split; [reflexivity|].
    repeat split. }
  split; [exact Hs|].
  exact (@svg_text_returns q no_int sample_response Hs).
Defined.

Lemma main_raises_on_non_object_witness :
  fst (fetch_weather (FetchBody (PyList [PyInt 1])) fresh_world)
  = Ok (PyList [PyInt 1]) /\
  truthy (PyList [PyInt 1]) = true /\
  (forall d, PyList [PyInt 1] <> PyDict d) /\
  fst (main q no_int (writes_ok false) (FetchBody (PyList [PyInt 1])) []
         fresh_world) = Raise AttributeError /\
  file_ops (snd (main q no_int (writes_ok false)
                   (FetchBody (PyList [PyInt 1])) [] fresh_world))
  = file_ops fresh_world.
Proof.
  assert (Hnd : forall d, PyList [PyInt 1] <> PyDict d)
    by (intros d; discriminate).
  split; [reflexivity|]. split; [reflexivity|]. split; [exact Hnd|].
  destruct (@main_raises_on_non_object q no_int (writes_ok false)
              (FetchBody (PyList [PyInt 1])) [] fresh_world
              (PyList [PyInt 1]) eq_refl eq_refl Hnd) as (H1 & _ & _ & H2).
  split; [exact H1 | exact H2].
Defined.

Lemma empty_max_built :
  build_md_entry q no_int [] empty_max_response
  = Ok (Some (logged_key, join blank_line empty_max_lines ++ delimiter)).
Proof. vm_compute; reflexivity. Qed.

Lemma empty_max_svg_text :
  svg_text q no_int empty_max_response = Raise IndexError.
Proof. vm_compute; reflexivity. Qed.

Lemma svg_failure_keeps_append_witness :
  svg_text q no_int empty_max_response = Raise IndexError /\
  key_found (writes_ok false) logged_key fresh_world = false /\
  fst (main q no_int (writes_ok false) (FetchBody empty_max_response) []
         fresh_world) = Raise IndexError /\
  md (snd (main q no_int (writes_ok false) (FetchBody empty_max_response) []
             fresh_world))
  = Some (contents (md fresh_world)
          ++ join blank_line empty_max_lines ++ delimiter).
Proof.
  split; [exact empty_max_svg_text|]. split; [reflexivity|].
  destruct (@svg_failure_keeps_append q no_int (writes_ok false)
              (FetchBody empty_max_response) [] fresh_world
              empty_max_response logged_key
              (join blank_line empty_max_lines ++ delimiter) IndexError
              eq_refl eq_refl empty_max_built empty_max_svg_text
              eq_refl eq_refl eq_refl) as (H1 & H2 & _).
  split; [exact H1 | exact H2].
Defined.

Lemma first_run_file_ops_witness :
  md fresh_world = None /\
  file_ops (snd (main q no_int (writes_ok false) (FetchBody sample_response)
                   [] fresh_world))
  = file_ops fresh_world
    ++ [MdExists; MdMkdirParent; MdOpenAppend; MdAppend sample_entry;
        SvgMkdirParent; SvgOpen; SvgPut (svg_render q sample_locals)].
Proof.
  split; [reflexivity|].
  exact (@first_run_file_ops q no_int (writes_ok false)
           (FetchBody sample_response) [] fresh_world sample_response
           logged_key sample_entry (svg_render q sample_locals)
           eq_refl eq_refl sample_built sample_svg_text eq_refl
           eq_refl eq_refl eq_refl eq_refl eq_refl).
Defined.

Lemma present_fields_get_lines_witness :
  py_get sample_current k_windspeed PyNone = Ok (float_lit "10.0" 10 true) /\
  daily_first
    (PyDict [(k_tmax, PyList [float_lit "27.0" 27 true]);
             (k_tmin, PyList [float_lit "20.0" 20 true]);
             (k_precip, PyList [float_lit "0.0" 0 false])]) k_precip
  = Ok (float_lit "0.0" 0 false) /\
  truthy (float_lit "0.0" 0 false) = false /\
  float_lit "0.0" 0 false <> PyNone /\
  In (precip_line q (float_lit "0.0" 0 false)) sample_lines /\
  In (wind_line q (float_lit "10.0" 10 true)) sample_lines.
Proof.
  assert (Hp : float_lit "0.0" 0 false <> PyNone) by discriminate.
  assert (Hw : float_lit "10.0" 10 true <> PyNone) by discriminate.
  split; [reflexivity|]. split; [reflexivity|]. split; [reflexivity|].
  split; [exact Hp|].
  destruct (@present_fields_get_lines q no_int [] sample_response
              sample_current
              (PyDict [(k_tmax, PyList [float_lit "27.0" 27 true]);
                       (k_tmin, PyList [float_lit "20.0" 20 true]);
                       (k_precip, PyList [float_lit "0.0" 0 false])])
              logged_key sample_lines
              (float_lit "24.5" 24 true) (float_lit "10.0" 10 true)
              (float_lit "27.0" 27 true) (float_lit "20.0" 20 true)
              (float_lit "0.0" 0 false)
              sample_built_lines eq_refl eq_refl eq_refl eq_refl
              eq_refl eq_refl eq_refl) as (_ & H2 & H3 & _).
  split; [exact (H3 Hp) | exact (H2 Hw)].
Defined.
